(** * Raster composition of the FURL icon scripts

    A shallow embedding of the icon generators of [flutter_furl]
    ([create_custom_icon.py], [create_icon.py], [convert_svg_icon.py],
    [create_emoji_icon.py], [create_gold_icon.py], [create_visible_icon.py],
    [create_store_assets.py], [create_android_icons.py]) and the properties
    of their gradient loops, paint order, alpha mask, corner rounding,
    text outline, stroked arcs and missing-icon handling.

    Python integers are [Z]; Python floats are IEEE binary64 and are
    modelled by the primitive floats of the Standard Library, so that
    [int(...)] of a float expression is computed bit for bit. *)

From Stdlib Require Import ZArith List Lia Bool String DecimalString.
From Stdlib Require Import Floats.
Import ListNotations.
Open Scope Z_scope.

(** ** Python arithmetic *)

Module Py.

(** [float(z)] for a Python integer (exact below 2^53). *)
Definition of_int (z : Z) : float :=
  if z <? 0 then PrimFloat.opp (PrimFloat.of_uint63 (Uint63.of_Z (- z)))
  else PrimFloat.of_uint63 (Uint63.of_Z z).

(** [int(f)]: truncation toward zero.  Python raises on an infinity or a
    NaN; the scripts only convert finite values, and those two cases are
    mapped to 0 here. *)
Definition int (f : float) : Z :=
  match Prim2SF f with
  | S754_finite s m e =>
      let v := Z.shiftl (Z.pos m) e in if s then - v else v
  | _ => 0
  end.

(** [a / b] on two integers (true division). *)
Definition truediv (a b : Z) : float := PrimFloat.div (of_int a) (of_int b).

(** [range(n)] *)
Definition range (n : Z) : list Z := map Z.of_nat (seq 0 (Z.to_nat n)).

(** [range(lo, hi)] *)
Definition range2 (lo hi : Z) : list Z := map (fun k => lo + k) (range (hi - lo)).

(** [for i in range(n): s = body(i, s)] *)
Definition for_range {S : Type} (n : Z) (body : Z -> S -> S) (s : S) : S :=
  fold_left (fun acc i => body i acc) (range n) s.

(** [str(z)], as an f-string prints an integer. *)
Definition str (z : Z) : string := NilZero.string_of_int (Z.to_int z).

End Py.

Notation "x +. y" := (PrimFloat.add x y) (at level 50, left associativity).
Notation "x -. y" := (PrimFloat.sub x y) (at level 50, left associativity).
Notation "x *. y" := (PrimFloat.mul x y) (at level 40, left associativity).

(** ** Colours, canvas and compositor *)

Record Color : Type := mkColor { red : Z; green : Z; blue : Z; alpha : Z }.

Definition transparent : Color := mkColor 0 0 0 0.

Definition opaque (c : Color) : Prop := alpha c = 255.

Definition Color_eqb (c d : Color) : bool :=
  (red c =? red d) && (green c =? green d) && (blue c =? blue d)
  && (alpha c =? alpha d).

(** A bounding box [[x0, y0, x1, y1]] as the scripts pass it to the drawing
    calls; both corners are inclusive. *)
Definition BBox : Type := (Z * Z * Z * Z)%type.

(** [Image.new('RGBA', (w, h), (0, 0, 0, 0))]: the image is kept as its size
    and its pixel function; reads and writes outside the size do not exist. *)
Record Canvas : Type := mkCanvas
  { width : Z; height : Z; pixels : Z -> Z -> Color }.

Definition newCanvas (w h : Z) : Canvas := mkCanvas w h (fun _ _ => transparent).

Definition in_bounds (cv : Canvas) (x y : Z) : bool :=
  (0 <=? x) && (x <? width cv) && (0 <=? y) && (y <? height cv).

Definition getpixel (cv : Canvas) (x y : Z) : option Color :=
  if in_bounds cv x y then Some (pixels cv x y) else None.

(** Division rounded to the nearest integer, for non-negative operands. *)
Definition rdiv (n d : Z) : Z := (2 * n + d) / (2 * d).

(** Modelled from the spec: the compositor is not part of the scripts (they
    draw through the imaging library).  Source-over blending of section 4.1:
    [outA = srcA + dstA(1 - srcA)],
    [outRGB = (srcRGB srcA + dstRGB dstA (1 - srcA)) / outA] on channels
    normalised to [0,1], written back as integers rounded to nearest, and
    [(0,0,0,0)] when [outA = 0].  [wa] is [outA] scaled by 255 * 255. *)
Definition blend (dst src : Color) : Color :=
  let wa := 255 * alpha src + alpha dst * (255 - alpha src) in
  if wa =? 0 then transparent
  else
    let ch (s d : Z) :=
      rdiv (s * alpha src * 255 + d * alpha dst * (255 - alpha src)) wa in
    mkColor (ch (red src) (red dst)) (ch (green src) (green dst))
            (ch (blue src) (blue dst)) (rdiv wa 255).

(** Painting a colour through a coverage test: every covered pixel inside
    the canvas is blended, every other pixel is kept.  The fills followed in
    this file are opaque, for which blending and overwriting the pixel are
    the same. *)
Definition paint (mask : Z -> Z -> bool) (c : Color) (cv : Canvas) : Canvas :=
  mkCanvas (width cv) (height cv)
    (fun x y =>
       if in_bounds cv x y && mask x y then blend (pixels cv x y) c
       else pixels cv x y).

(** Modelled from the spec: the ellipse rasteriser is the imaging library's.
    Filled ellipse of section 4.3: a pixel of the bounding box is covered
    when [((x - cx)/rx)^2 + ((y - cy)/ry)^2 <= 1]; the test is written on
    doubled coordinates so that it stays in the integers. *)
Definition in_ellipse (bb : BBox) (x y : Z) : bool :=
  let '(x0, y0, x1, y1) := bb in
  let w := x1 - x0 in
  let h := y1 - y0 in
  (x0 <=? x) && (x <=? x1) && (y0 <=? y) && (y <=? y1)
  && ((2 * x - x0 - x1) ^ 2 * h ^ 2 + (2 * y - y0 - y1) ^ 2 * w ^ 2
      <=? w ^ 2 * h ^ 2).

(** Filled rectangle: every pixel of the bounding box. *)
Definition in_rectangle (bb : BBox) (x y : Z) : bool :=
  let '(x0, y0, x1, y1) := bb in
  (x0 <=? x) && (x <=? x1) && (y0 <=? y) && (y <=? y1).

(** [draw.ellipse(bbox, fill=c)] and [draw.rectangle(bbox, fill=c)]. *)
Definition ellipse (bb : BBox) (c : Color) (cv : Canvas) : Canvas :=
  paint (in_ellipse bb) c cv.

Definition rectangle (bb : BBox) (c : Color) (cv : Canvas) : Canvas :=
  paint (in_rectangle bb) c cv.

(** Squared distance of a pixel to a centre on the diagonal [(c, c)]. *)
Definition dist2 (c x y : Z) : Z := (x - c) ^ 2 + (y - c) ^ 2.

(** The bounding box [[c - i, c - i, c + i, c + i]] of the circle of radius
    [i] centred at [(c, c)]. *)
Definition ring_bbox (c i : Z) : BBox := (c - i, c - i, c + i, c + i).

(** Radius of a square bounding box. *)
Definition bbox_radius (bb : BBox) : Z :=
  let '(x0, _, x1, _) := bb in (x1 - x0) / 2.

(** The smallest integer radius that reaches a pixel: [ceil(d)] for the
    pixel's distance [d] to the centre. *)
Definition ceil_dist (c x y : Z) : Z := Z.sqrt_up (dist2 c x y).

(** A gradient loop issues one [draw.ellipse] call per iteration; the calls
    of a loop, in order, and their replay on a canvas. *)
Definition RingOp : Type := (BBox * Color)%type.

Definition draw_rings (ops : list RingOp) (cv : Canvas) : Canvas :=
  fold_left (fun acc op => ellipse (fst op) (snd op) acc) ops cv.

(** Two colours within one unit of each other on every channel. *)
Definition within1 (c d : Color) : bool :=
  (Z.abs (red c - red d) <=? 1) && (Z.abs (green c - green d) <=? 1)
  && (Z.abs (blue c - blue d) <=? 1) && (Z.abs (alpha c - alpha d) <=? 1).

(** ** create_custom_icon.py: background gradient (lines 15-29) *)

Module CustomIcon.

Definition size : Z := 1024.
Definition center : Z := size / 2.
Definition radius : Z := 480.

(** Loop body, lines 22-26: [ratio = i / radius],
    [r = int(101 + (139 - 101) * ratio)] and so on, [alpha = 255]. *)
Definition ring_color (radius i : Z) : Color :=
  let ratio := Py.truediv i radius in
  mkColor (Py.int (Py.of_int 101 +. Py.of_int (139 - 101) *. ratio))
          (Py.int (Py.of_int 99 +. Py.of_int (92 - 99) *. ratio))
          (Py.int (Py.of_int 229 +. Py.of_int (246 - 229) *. ratio))
          255.

(** Lines 20-29: [for i in range(radius): draw.ellipse([center-i, center-i,
    center+i, center+i], fill=(r, g, b, alpha))]. *)
Definition gradient (center radius : Z) (cv : Canvas) : Canvas :=
  Py.for_range radius
    (fun i acc => ellipse (ring_bbox center i) (ring_color radius i) acc) cv.

Definition ring_ops (center radius : Z) : list RingOp :=
  map (fun i => (ring_bbox center i, ring_color radius i)) (Py.range radius).

(** Lines 49-56: the text is centred from the box the font measures. *)
Definition text_x (text_width : Z) : Z := (size - text_width) / 2.
Definition text_y (text_height : Z) : Z := (size - text_height) / 2 - 40.

(** Lines 49-62: [draw.textbbox((0, 0), text, font=font)] is the box of the
    ink for the origin (0, 0) and [text_width = bbox[2] - bbox[0]]; drawn
    at [text_x] the ink spans the columns [text_x + bbox[0]] to
    [text_x + bbox[2]]. *)
Definition ink_left (bbox : BBox) : Z :=
  let '(b0, _, b2, _) := bbox in text_x (b2 - b0) + b0.
Definition ink_right (bbox : BBox) : Z :=
  let '(b0, _, b2, _) := bbox in text_x (b2 - b0) + b2.

(** Lines 64-76: the padlock sits 20 below the text; its body. *)
Definition padlock_y (text_height : Z) : Z :=
  text_y text_height + text_height + 20.
Definition padlock_size : Z := 120.
Definition padlock_x : Z := center - padlock_size / 2.
Definition body_height : Z := padlock_size.
Definition body_width : Z := padlock_size.
Definition body_box (text_height : Z) : BBox :=
  (padlock_x, padlock_y text_height + 30,
   padlock_x + body_width, padlock_y text_height + body_height).

(** Lines 92-105: keyhole disc and slot. *)
Definition keyhole_size : Z := 20.
Definition keyhole_x : Z := center - keyhole_size / 2.
Definition keyhole_y (text_height : Z) : Z := padlock_y text_height + 50.
Definition keyhole_box (text_height : Z) : BBox :=
  (keyhole_x, keyhole_y text_height,
   keyhole_x + keyhole_size, keyhole_y text_height + keyhole_size).
Definition slot_width : Z := 8.
Definition slot_height : Z := 25.
Definition slot_x : Z := center - slot_width / 2.
Definition slot_y (text_height : Z) : Z :=
  keyhole_y text_height + keyhole_size - 5.
Definition slot_box (text_height : Z) : BBox :=
  (slot_x, slot_y text_height,
   slot_x + slot_width, slot_y text_height + slot_height).

End CustomIcon.

(** ** create_icon.py: background gradient (lines 15-25) and document *)

Module Icon.

Definition size : Z := 1024.
Definition center : Z := size / 2.

(** Lines 19-22: [r = int(79 + (116 - 79) * i / center)]; the product is an
    integer and the division a true division. *)
Definition ring_color (center i : Z) : Color :=
  mkColor (Py.int (Py.of_int 79 +. Py.truediv ((116 - 79) * i) center))
          (Py.int (Py.of_int 70 +. Py.truediv ((58 - 70) * i) center))
          (Py.int (Py.of_int 229 +. Py.truediv ((237 - 229) * i) center))
          255.

(** Lines 17-25: [for i in range(center): draw.ellipse([center-i, ...])]. *)
Definition gradient (center : Z) (cv : Canvas) : Canvas :=
  Py.for_range center
    (fun i acc => ellipse (ring_bbox center i) (ring_color center i) acc) cv.

Definition ring_ops (center : Z) : list RingOp :=
  map (fun i => (ring_bbox center i, ring_color center i)) (Py.range center).

Definition doc_width : Z := 200.
Definition doc_height : Z := 260.
Definition doc_x : Z := center - doc_width / 2.
Definition doc_y : Z := center - doc_height / 2.

(** Lines 27-35: the gradient, then the main document rectangle in opaque
    white. *)
Definition background_and_document : Canvas :=
  rectangle (doc_x, doc_y, doc_x + doc_width, doc_y + doc_height)
    (mkColor 255 255 255 255)
    (gradient center (newCanvas size size)).

End Icon.

(** ** convert_svg_icon.py: background gradient (lines 22-36) *)

Module SvgIcon.

(** Lines 18 and 23-24: [center = size // 2],
    [radius = int(240 * size / 512)]; the script runs with [size = 1024]. *)
Definition size : Z := 1024.
Definition center_of (size : Z) : Z := size / 2.
Definition radius_of (size : Z) : Z := Py.int (Py.truediv (240 * size) 512).

(** Lines 29-32: [factor = i / radius],
    [r = int(79 * (1 - factor) + 124 * factor)] and so on. *)
Definition ring_color (radius i : Z) : Color :=
  let factor := Py.truediv i radius in
  let mix (a b : Z) :=
    Py.int (Py.of_int a *. (Py.of_int 1 -. factor) +. Py.of_int b *. factor) in
  mkColor (mix 79 124) (mix 70 58) (mix 229 237) 255.

(** Lines 34-36: the box [[center - radius + i, center - radius + i,
    center + radius - i, center + radius - i]]. *)
Definition ring_box (center radius i : Z) : BBox :=
  (center - radius + i, center - radius + i,
   center + radius - i, center + radius - i).

Definition gradient (center radius : Z) (cv : Canvas) : Canvas :=
  Py.for_range radius
    (fun i acc => ellipse (ring_box center radius i) (ring_color radius i) acc)
    cv.

Definition ring_ops (center radius : Z) : list RingOp :=
  map (fun i => (ring_box center radius i, ring_color radius i))
      (Py.range radius).

(** Line 39: [scale = size / 512]; lines 42 on: every coordinate of the
    512-unit design is placed at [int(k * scale)]. *)
Definition scale (size : Z) : float := Py.truediv size 512.
Definition scaled (size k : Z) : Z := Py.int (Py.of_int k *. scale size).

End SvgIcon.

(** ** Strokes, text and rounded rectangles *)

(** One [draw.arc(bbox, start, end, fill, width)] call. *)
Record ArcOp : Type := mkArcOp
  { arc_bbox : BBox; arc_start : Z; arc_end : Z; arc_fill : Color;
    arc_width : Z }.

(** One [draw.text((x, y), text, font, fill)] call; the glyphs belong to the
    font, the call is kept as its position and colour. *)
Record TextOp : Type := mkTextOp { text_x : Z; text_y : Z; text_fill : Color }.

(** A bounding box grown outward by [d] on every side. *)
Definition expand (bb : BBox) (d : Z) : BBox :=
  let '(x0, y0, x1, y1) := bb in (x0 - d, y0 - d, x1 + d, y1 + d).

(** Modelled from the spec: [draw.rounded_rectangle] is the imaging
    library's.  Strategy (b) of section 4.3: a pixel of the bounding box is
    covered unless it lies in a corner square of side [r] and outside the
    circle of radius [r] inscribed in that corner. *)
Definition in_rounded_rectangle (bb : BBox) (r : Z) (x y : Z) : bool :=
  let '(x0, y0, x1, y1) := bb in
  let cx := if x <? x0 + r then x0 + r else if x1 - r <? x then x1 - r else x in
  let cy := if y <? y0 + r then y0 + r else if y1 - r <? y then y1 - r else y in
  in_rectangle bb x y && ((x - cx) ^ 2 + (y - cy) ^ 2 <=? r ^ 2).

Definition rounded_rectangle (bb : BBox) (r : Z) (c : Color) (cv : Canvas)
  : Canvas := paint (in_rounded_rectangle bb r) c cv.

(** A draw call on an 'RGBA' image stores its colour in every covered
    pixel, alpha included; for an opaque colour this is [paint]. *)
Definition stamp (mask : Z -> Z -> bool) (c : Color) (cv : Canvas) : Canvas :=
  mkCanvas (width cv) (height cv)
    (fun x y => if in_bounds cv x y && mask x y then c else pixels cv x y).

(** [draw.ellipse(bbox, outline=c, width=w)]: the outline is the imaging
    library's; it is taken as the pixels of the ellipse of [bbox] that are
    outside the ellipse of the box shrunk by [w] on every side. *)
Definition in_ellipse_outline (bb : BBox) (w : Z) (x y : Z) : bool :=
  in_ellipse bb x y && negb (in_ellipse (expand bb (- w)) x y).

Definition ellipse_outline (bb : BBox) (c : Color) (w : Z) (cv : Canvas)
  : Canvas := stamp (in_ellipse_outline bb w) c cv.

(** ** create_emoji_icon.py *)

Module EmojiIcon.

Definition size : Z := 1024.
Definition center : Z := size / 2.
Definition radius : Z := center - 50.

(** Lines 20-29: the ring gradient, with the colour formula and the boxes
    of [convert_svg_icon.py]. *)
Definition gradient (center radius : Z) (cv : Canvas) : Canvas :=
  Py.for_range radius
    (fun i acc =>
       ellipse (SvgIcon.ring_box center radius i)
               (SvgIcon.ring_color radius i) acc) cv.

Definition ring_ops (center radius : Z) : list RingOp :=
  map (fun i => (SvgIcon.ring_box center radius i, SvgIcon.ring_color radius i))
      (Py.range radius).

Definition padlock_size : Z := 320.
Definition padlock_x : Z := center - padlock_size / 2.
Definition padlock_y : Z := center - padlock_size / 2.

Definition gold_body : Color := mkColor 255 215 0 255.
Definition gold_dark : Color := mkColor 218 165 32 255.

(** The literals [0.7], [0.6], [0.3] and [0.35] as binary64 values. *)
Definition f0_7 : float := 0x1.6666666666666p-1%float.
Definition f0_6 : float := 0x1.3333333333333p-1%float.
Definition f0_3 : float := 0x1.3333333333333p-2%float.
Definition f0_35 : float := 0x1.6666666666666p-2%float.

(** Lines 43-46. *)
Definition body_width : Z := Py.int (Py.of_int padlock_size *. f0_7).
Definition body_height : Z := Py.int (Py.of_int padlock_size *. f0_6).
Definition body_x : Z := padlock_x + (padlock_size - body_width) / 2.
Definition body_y : Z := padlock_y + Py.int (Py.of_int padlock_size *. f0_3).

(** Lines 49-53: [blend = y / body_height],
    [r = int(gold_body[0] * (1 - blend) + gold_dark[0] * blend)]. *)
Definition body_color (body_height y : Z) : Color :=
  let blend_ := Py.truediv y body_height in
  let mix (a b : Z) :=
    Py.int (Py.of_int a *. (Py.of_int 1 -. blend_) +. Py.of_int b *. blend_) in
  mkColor (mix (red gold_body) (red gold_dark))
          (mix (green gold_body) (green gold_dark))
          (mix (blue gold_body) (blue gold_dark)) 255.

(** Lines 49-56: one rectangle [[body_x, body_y + y, body_x + body_width,
    body_y + y + 1]] per row. *)
Definition body_gradient (cv : Canvas) : Canvas :=
  Py.for_range body_height
    (fun y acc =>
       rectangle (body_x, body_y + y, body_x + body_width, body_y + y + 1)
                 (body_color body_height y) acc) cv.

(** Lines 59-70: the corner squares, filled with the [(r, g, b)] left by
    the last iteration of the body loop. *)
Definition corner_r : Z := 20.

Definition corners : list (Z * Z) :=
  [ (body_x, body_y);
    (body_x + body_width - corner_r * 2, body_y);
    (body_x, body_y + body_height - corner_r * 2);
    (body_x + body_width - corner_r * 2, body_y + body_height - corner_r * 2) ].

Definition round_corners (cv : Canvas) : Canvas :=
  fold_left
    (fun acc c =>
       rectangle (fst c, snd c, fst c + corner_r, snd c + corner_r)
                 (body_color body_height (body_height - 1)) acc)
    corners cv.

Definition body (cv : Canvas) : Canvas := round_corners (body_gradient cv).

(** Lines 73-83: the shackle. *)
Definition shackle_width : Z := Py.int (Py.of_int body_width *. f0_6).
Definition shackle_height : Z := Py.int (Py.of_int padlock_size *. f0_35).
Definition shackle_x : Z := body_x + (body_width - shackle_width) / 2.
Definition shackle_y : Z := padlock_y.
Definition thickness : Z := 25.

Definition shackle_ops : list ArcOp :=
  map (fun t =>
         mkArcOp (shackle_x - t / 2, shackle_y - t / 2,
                  shackle_x + shackle_width + t / 2,
                  shackle_y + shackle_height + t / 2)
                 180 360 gold_body 3)
      (Py.range thickness).

(** Lines 85-91: the hollow of the shackle, in the colour left by the body
    loop. *)
Definition hollow_margin : Z := 35.

Definition hollow_ops : list ArcOp :=
  map (fun t =>
         mkArcOp (shackle_x + hollow_margin - t / 2,
                  shackle_y + hollow_margin - t / 2,
                  shackle_x + shackle_width - hollow_margin + t / 2,
                  shackle_y + shackle_height - hollow_margin + t / 2)
                 180 360 (body_color body_height (body_height - 1)) 3)
      (Py.range 20).

(** Lines 142-149: the highlight rows, [alpha = int(100 * (1 - i /
    highlight_h))]. *)
Definition highlight_h : Z := body_height / 4.

Definition highlight_alpha (highlight_h i : Z) : Z :=
  Py.int (Py.of_int 100 *. (Py.of_int 1 -. Py.truediv i highlight_h)).

(** The pixels of the four corner squares. *)
Definition in_corner_square (x y : Z) : bool :=
  existsb (fun c => in_rectangle (fst c, snd c, fst c + corner_r,
                                  snd c + corner_r) x y) corners.

End EmojiIcon.

(** ** create_gold_icon.py *)

Module GoldIcon.

Definition size : Z := 1024.
Definition center : Z := size / 2.
Definition radius : Z := center - 50.
Definition background : Color := mkColor 42 69 148 255.

Definition padlock_size : Z := 380.
Definition padlock_x : Z := center - padlock_size / 2.
Definition padlock_y : Z := center - padlock_size / 2 + 20.

Definition gold_main : Color := mkColor 255 215 0 255.
Definition gold_dark : Color := mkColor 218 165 32 255.

Definition body_width : Z := padlock_size.
Definition body_height : Z := padlock_size - 100.
Definition body_top : Z := padlock_y + 100.

(** Lines 44-47. *)
Definition body_color (body_height i : Z) : Color :=
  let blend_factor := Py.truediv i body_height in
  let mix (a b : Z) :=
    Py.int (Py.of_int a *. (Py.of_int 1 -. blend_factor)
            +. Py.of_int b *. blend_factor) in
  mkColor (mix (red gold_main) (red gold_dark))
          (mix (green gold_main) (green gold_dark))
          (mix (blue gold_main) (blue gold_dark)) 255.

(** Lines 19-21: the background disc. *)
Definition background_disc (cv : Canvas) : Canvas :=
  ellipse (center - radius, center - radius, center + radius, center + radius)
          background cv.

(** Lines 23-25: the subtle border, [outline=(255, 255, 255, 40)],
    [width=8], on the box of the background disc. *)
Definition border (cv : Canvas) : Canvas :=
  ellipse_outline
    (center - radius, center - radius, center + radius, center + radius)
    (mkColor 255 255 255 40) 8 cv.

(** Lines 43-51. *)
Definition body_gradient (cv : Canvas) : Canvas :=
  Py.for_range body_height
    (fun i acc =>
       rectangle (padlock_x, body_top + i, padlock_x + body_width,
                  body_top + i + 1)
                 (body_color body_height i) acc) cv.

(** Lines 53-68: "Round the corners by drawing over with background
    color": four discs of radius [corner_size] centred on the corners of the
    body. *)
Definition corner_size : Z := 25.

Definition round_corners (cv : Canvas) : Canvas :=
  let disc (x y : Z) :=
    ellipse (x - corner_size, y - corner_size, x + corner_size, y + corner_size)
            background in
  disc (padlock_x + body_width) (body_top + body_height)
    (disc padlock_x (body_top + body_height)
       (disc (padlock_x + body_width) body_top
          (disc padlock_x body_top cv))).

(** Lines 19-68: the background disc, its border, the body rows and the
    corner discs, in the order of the script. *)
Definition body (cv : Canvas) : Canvas :=
  round_corners (body_gradient (border (background_disc cv))).

(** Lines 70-81: the shackle. *)
Definition shackle_width : Z := 200.
Definition shackle_height : Z := 140.
Definition shackle_x : Z := padlock_x + (body_width - shackle_width) / 2.
Definition shackle_y : Z := padlock_y.
Definition shackle_thickness : Z := 35.

Definition shackle_ops : list ArcOp :=
  map (fun thickness =>
         mkArcOp (shackle_x - thickness / 2, shackle_y - thickness / 2,
                  shackle_x + shackle_width + thickness / 2,
                  shackle_y + shackle_height + thickness / 2)
                 180 360 gold_main 4)
      (Py.range shackle_thickness).

(** Lines 132-140: the outline loop, with its guard
    [if adj_x != 0 or adj_y != 0], then the main text. *)
Definition outline_size : Z := 4.

Definition outline_ops (tx ty : Z) : list TextOp :=
  flat_map
    (fun adj_x =>
       flat_map
         (fun adj_y =>
            if negb (adj_x =? 0) || negb (adj_y =? 0)
            then [mkTextOp (tx + adj_x) (ty + adj_y) (mkColor 0 0 0 255)]
            else [])
         (Py.range2 (- outline_size) (outline_size + 1)))
    (Py.range2 (- outline_size) (outline_size + 1)).

Definition text_ops (tx ty : Z) : list TextOp :=
  outline_ops tx ty ++ [mkTextOp tx ty (mkColor 255 255 255 255)].

(** Lines 83-89: the hollow of the shackle. *)
Definition hollow_margin : Z := 60.

Definition hollow_ops : list ArcOp :=
  map (fun thickness =>
         mkArcOp (shackle_x + hollow_margin - thickness / 2,
                  shackle_y + hollow_margin - thickness / 2,
                  shackle_x + shackle_width - hollow_margin + thickness / 2,
                  shackle_y + shackle_height - hollow_margin + thickness / 2)
                 180 360 background 4)
      (Py.range 40).

(** Lines 108-114: the highlight rows, [alpha = int(80 * (1 - i /
    highlight_height))]. *)
Definition highlight_height : Z := body_height / 3.

Definition highlight_alpha (highlight_height i : Z) : Z :=
  Py.int (Py.of_int 80 *. (Py.of_int 1 -. Py.truediv i highlight_height)).

(** Lines 126-130: the text is centred on [center] from its measured
    width. *)
Definition text_x (text_width : Z) : Z := center - text_width / 2.
Definition text_y : Z := center + radius - 140.

(** Lines 126-140: [draw.textbbox((0, 0), text, font=font)] is the box of the
    ink for the origin (0, 0) and [text_width = bbox[2] - bbox[0]]; drawn
    at [text_x] the ink spans the columns [text_x + bbox[0]] to
    [text_x + bbox[2]]. *)
Definition ink_left (bbox : BBox) : Z :=
  let '(b0, _, b2, _) := bbox in text_x (b2 - b0) + b0.
Definition ink_right (bbox : BBox) : Z :=
  let '(b0, _, b2, _) := bbox in text_x (b2 - b0) + b2.

(** The box of the disc drawn on a corner [(x, y)] of the body, and the
    pixels within any of the four discs. *)
Definition corner_box (x y : Z) : BBox :=
  (x - corner_size, y - corner_size, x + corner_size, y + corner_size).

Definition near_corner (x y : Z) : bool :=
  in_ellipse (corner_box padlock_x body_top) x y
  || in_ellipse (corner_box (padlock_x + body_width) body_top) x y
  || in_ellipse (corner_box padlock_x (body_top + body_height)) x y
  || in_ellipse (corner_box (padlock_x + body_width) (body_top + body_height))
       x y.

End GoldIcon.

(** ** create_visible_icon.py *)

Module VisibleIcon.

Definition size : Z := 1024.
Definition center : Z := size / 2.
Definition radius : Z := center - 50.
Definition purple : Color := mkColor 103 58 183 255.

Definition padlock_size : Z := 300.
Definition padlock_x : Z := center - padlock_size / 2.
Definition padlock_y : Z := center - padlock_size / 2 + 30.
Definition body_width : Z := padlock_size.
Definition body_height : Z := padlock_size - 80.
Definition body_top : Z := padlock_y + 80.

(** Lines 37-39. *)
Definition body (cv : Canvas) : Canvas :=
  rounded_rectangle
    (padlock_x, body_top, padlock_x + body_width, body_top + body_height)
    20 (mkColor 255 255 255 255) cv.

(** Lines 42-51: the shackle; the box grows by [thickness] itself. *)
Definition shackle_width : Z := 160.
Definition shackle_height : Z := 120.
Definition shackle_x : Z := padlock_x + (body_width - shackle_width) / 2.
Definition shackle_y : Z := padlock_y.

Definition shackle_ops : list ArcOp :=
  map (fun thickness =>
         mkArcOp (shackle_x - thickness, shackle_y - thickness,
                  shackle_x + shackle_width + thickness,
                  shackle_y + shackle_height + thickness)
                 180 360 (mkColor 255 255 255 255) 3)
      (Py.range 25).

(** Lines 86-90: the outline loop (no guard), then the main text. *)
Definition outline_ops (tx ty : Z) : list TextOp :=
  flat_map
    (fun adj =>
       map (fun adj2 => mkTextOp (tx + adj) (ty + adj2) (mkColor 255 255 255 255))
           (Py.range2 (-3) 4))
    (Py.range2 (-3) 4).

Definition text_ops (tx ty : Z) : list TextOp :=
  outline_ops tx ty ++ [mkTextOp tx ty purple].

(** Lines 80-84. *)
Definition text_x (text_width : Z) : Z := center - text_width / 2.
Definition text_y : Z := center + radius - 120.

(** Lines 80-90: [draw.textbbox((0, 0), text, font=font)] is the box of the
    ink for the origin (0, 0) and [text_width = bbox[2] - bbox[0]]; drawn
    at [text_x] the ink spans the columns [text_x + bbox[0]] to
    [text_x + bbox[2]]. *)
Definition ink_left (bbox : BBox) : Z :=
  let '(b0, _, b2, _) := bbox in text_x (b2 - b0) + b0.
Definition ink_right (bbox : BBox) : Z :=
  let '(b0, _, b2, _) := bbox in text_x (b2 - b0) + b2.

End VisibleIcon.

(** ** Script runs: what a script paints, writes and prints *)

Inductive Step : Type :=
| Paint (layer : string)
| Save (path : string) (w h : Z)
| Print (msg : string).

Inductive Outcome : Type :=
| Completed
| Exited (code : Z).

Definition Run : Type := (list Step * Outcome)%type.

(** [Image.open(path)] on an existing path: the file is read as an image,
    or the call raises with a message (a directory, a file that is no
    image). *)
Inductive Opened : Type :=
| Image_ok
| Raises (msg : string).

Definition is_save (s : Step) : bool :=
  match s with Save _ _ _ => true | _ => false end.

Definition is_print (s : Step) : bool :=
  match s with Print _ => true | _ => false end.

Definition paints (layer : string) (s : Step) : bool :=
  match s with Paint l => String.eqb l layer | _ => false end.

Definition saves (path : string) (s : Step) : bool :=
  match s with Save p _ _ => String.eqb p path | _ => false end.

Definition prints (msg : string) (s : Step) : bool :=
  match s with Print m => String.eqb m msg | _ => false end.

(** An 8-bit single-band image (mode 'L'), used as alpha mask. *)
Record Mask : Type := mkMask
  { mask_width : Z; mask_height : Z; mask_values : Z -> Z -> Z }.

(** [Image.putalpha(mask)] of the imaging library: the alpha band of the
    image is replaced by the mask, the colour bands are kept; a mask of
    another size is refused ([ValueError]). *)
Definition putalpha (img : Canvas) (m : Mask) : option Canvas :=
  if (mask_width m =? width img) && (mask_height m =? height img) then
    Some (mkCanvas (width img) (height img)
            (fun x y =>
               let p := pixels img x y in
               mkColor (red p) (green p) (blue p) (mask_values m x y)))
  else None.

(** ** create_store_assets.py *)

Module StoreAssets.

Definition width : Z := 1024.
Definition height : Z := 500.

(** Lines 18-21: [ratio = y / height], [r = int(79 + (116 - 79) * ratio)]. *)
Definition row_color (height y : Z) : Color :=
  let ratio := Py.truediv y height in
  mkColor (Py.int (Py.of_int 79 +. Py.of_int (116 - 79) *. ratio))
          (Py.int (Py.of_int 70 +. Py.of_int (58 - 70) *. ratio))
          (Py.int (Py.of_int 229 +. Py.of_int (237 - 229) *. ratio))
          255.

(** Lines 16-23: one rectangle [[0, y, width, y + 1]] per row. *)
Definition gradient (cv : Canvas) : Canvas :=
  Py.for_range height
    (fun y acc => rectangle (0, y, width, y + 1) (row_color height y) acc) cv.

Definition icon_size : Z := 300.
Definition icon_x : Z := 50.
Definition icon_y : Z := (height - icon_size) / 2.
Definition icon_path : string := "assets/icons/app_icon.png".

(** Lines 37-39: [Image.new('L', (icon_size, icon_size), 0)] and a disc of
    value 255 in the box [[20, 20, icon_size - 20, icon_size - 20]]. *)
Definition circular_mask : Mask :=
  mkMask icon_size icon_size
    (fun x y =>
       if (0 <=? x) && (x <? icon_size) && (0 <=? y) && (y <? icon_size)
          && in_ellipse (20, 20, icon_size - 20, icon_size - 20) x y
       then 255 else 0).

(** Lines 41-43: the resized icon takes the mask as its alpha band. *)
Definition masked_icon (app_icon : Canvas) : option Canvas :=
  putalpha app_icon circular_mask.

(** The whole script for a file system, [exists_] for [os.path.exists]
    and [open_] for [Image.open], with the imaging library installed and
    once a font is resolved (lines 6-116): the banner layers in paint order,
    the export, the messages, then the 512 x 512 store icon.  When the icon
    is there but [Image.open] raises (line 33), [except Exception] prints
    the error and the script ends without having written anything.
    Messages are kept without their leading pictograph. *)
Definition run (exists_ : string -> bool) (open_ : string -> Opened) : Run :=
  match (if exists_ icon_path then open_ icon_path else Image_ok) with
  | Raises e => ([Paint "gradient"; Print ("Error: " ++ e)], Completed)
  | Image_ok =>
      ([Paint "gradient"]
       ++ (if exists_ icon_path then [Paint "icon"] else [Paint "placeholder"])
       ++ [Paint "title"; Paint "subtitle"; Paint "features";
           Save "assets/store/feature_graphic.png" width height;
           Print "Feature graphic created: assets/store/feature_graphic.png";
           Print "Size: 1024x500 pixels"]
       ++ (if exists_ icon_path
           then [Save "assets/store/app_icon_512.png" 512 512;
                 Print "Store icon created: assets/store/app_icon_512.png";
                 Print "Size: 512x512 pixels"]
           else []),
       Completed)
  end.

End StoreAssets.

(** ** create_android_icons.py *)

Module AndroidIcons.

Definition main_icon_path : string := "assets/icons/app_icon.png".

Definition android_sizes : list (string * Z) :=
  [ ("mipmap-mdpi", 48); ("mipmap-hdpi", 72); ("mipmap-xhdpi", 96);
    ("mipmap-xxhdpi", 144); ("mipmap-xxxhdpi", 192) ]%string.

Definition android_res_path : string := "android/app/src/main/res".

Definition icon_file (folder name : string) : string :=
  (android_res_path ++ "/" ++ folder ++ "/" ++ name)%string.

(** Lines 22-38: one loop over the sizes; each file is written and
    reported as [Created <path> (<size>x<size>)]. *)
Definition resize_all (name : string) : list Step :=
  flat_map
    (fun fs =>
       [Save (icon_file (fst fs) name) (snd fs) (snd fs);
        Print ("Created " ++ icon_file (fst fs) name ++ " ("
               ++ Py.str (snd fs) ++ "x" ++ Py.str (snd fs) ++ ")")])
    android_sizes.

(** Lines 6-53, with the imaging library installed: a missing main icon is
    printed and the script leaves with [exit(1)], which [except Exception]
    does not catch; when [Image.open] raises on the icon (line 16),
    [except Exception] prints the error and the script ends without having
    written anything; otherwise the two loops over the sizes run.  Messages
    are kept without their leading pictograph and blank line. *)
Definition run (exists_ : string -> bool) (open_ : string -> Opened) : Run :=
  if negb (exists_ main_icon_path) then
    ([Print "Main icon not found at assets/icons/app_icon.png"], Exited 1)
  else
    match open_ main_icon_path with
    | Raises e => ([Print ("Error: " ++ e)], Completed)
    | Image_ok =>
        (resize_all "launcher_icon.png" ++ resize_all "ic_launcher.png"
         ++ [Print "Android launcher icons created successfully!";
             Print "Icons created in: android/app/src/main/res"],
         Completed)
    end.

End AndroidIcons.

(** The files a run writes, in order, with their sizes. *)
Definition saved_files (r : Run) : list (string * Z * Z) :=
  flat_map (fun s => match s with Save p w h => [(p, w, h)] | _ => [] end)
           (fst r).

(** A channel value between the two ends of its gradient, and a step that
    does not move away from the second end. *)
Definition between (a b v : Z) : bool := (Z.min a b <=? v) && (v <=? Z.max a b).

Definition toward (a b v w : Z) : bool := if a <=? b then v <=? w else w <=? v.

Definition color_between (A B k : Color) : bool :=
  between (red A) (red B) (red k) && between (green A) (green B) (green k)
  && between (blue A) (blue B) (blue k) && (alpha k =? 255).

Definition color_toward (A B k k' : Color) : bool :=
  toward (red A) (red B) (red k) (red k')
  && toward (green A) (green B) (green k) (green k')
  && toward (blue A) (blue B) (blue k) (blue k').

(** A gradient loop of [n] steps whose colours start at [A], stay between
    [A] and [B] and never step back. *)
Definition gradual (A B : Color) (f : Z -> Color) (n : Z) : bool :=
  Color_eqb (f 0) A
  && forallb (fun i => color_between A B (f i)
                       && ((n <=? i + 1) || color_toward A B (f i) (f (i + 1))))
             (Py.range n).

Definition Gradual (A B : Color) (f : Z -> Color) (n : Z) : Prop :=
  f 0 = A
  /\ forall i, 0 <= i < n ->
       color_between A B (f i) = true
       /\ (i + 1 < n -> color_toward A B (f i) (f (i + 1)) = true).

(** Default pass for list lookups. *)
Definition no_arc : ArcOp := mkArcOp (0, 0, 0, 0) 0 0 transparent 0.

(** An alpha ramp of [n] steps that starts at [top], stays between 0 and
    [top] and never rises. *)
Definition fades (top : Z) (f : Z -> Z) (n : Z) : bool :=
  (f 0 =? top)
  && forallb (fun i => (0 <=? f i) && (f i <=? top)
                       && ((n <=? i + 1) || (f (i + 1) <=? f i)))
             (Py.range n).

Definition Fades (top : Z) (f : Z -> Z) (n : Z) : Prop :=
  f 0 = top
  /\ forall i, 0 <= i < n ->
       0 <= f i <= top /\ (i + 1 < n -> f (i + 1) <= f i).

(** A file system without any file. *)
Definition no_icon : string -> bool := fun _ => false.

Definition is_image (o : Opened) : bool :=
  match o with Image_ok => true | Raises _ => false end.

(** Files that exist and open as images, and files that exist and do
    not. *)
Definition all_files : string -> bool := fun _ => true.
Definition opens : string -> Opened := fun _ => Image_ok.
Definition no_image : string -> Opened :=
  fun _ => Raises "cannot identify image file".

(** A message of the banner script other than its two success lines. *)
Definition store_report (s : Step) : bool :=
  is_print s
  && negb (prints "Feature graphic created: assets/store/feature_graphic.png" s)
  && negb (prints "Size: 1024x500 pixels" s).

(** The two ends [#4f46e5] and [#7c3aed] of the ring gradients. *)
Definition indigo : Color := mkColor 79 70 229 255.
Definition violet : Color := mkColor 124 58 237 255.

(** ** The gradient engine as the specification words it *)

Module Spec.

(** [lerp(a, b, t) = round(a (1 - t) + b t)] at [t = i / n]. *)
Definition lerp (a b i n : Z) : Z := rdiv (a * (n - i) + b * i) n.

Definition lerp_color (A B : Color) (i n : Z) : Color :=
  mkColor (lerp (red A) (red B) i n) (lerp (green A) (green B) i n)
          (lerp (blue A) (blue B) i n) 255.

(** Section 4.2: for [i] from [radius] down to [0], a filled circle of
    radius [i] in the colour [lerp(colorA, colorB, i / radius)]. *)
Definition ring_ops (center radius : Z) (A B : Color) : list RingOp :=
  map (fun i => (ring_bbox center i, lerp_color A B i radius))
      (rev (Py.range (radius + 1))).

(** Section 8: the colour expected at a pixel of a ring gradient,
    [lerp(colorA, colorB, ceil(d) / radius)]. *)
Definition ring_pixel (center radius : Z) (A B : Color) (x y : Z) : Color :=
  lerp_color A B (ceil_dist center x y) radius.

(** Section 4.1: [applyAlphaMask] multiplies each pixel's alpha by
    [maskAlpha / 255] and keeps the colour channels. *)
Definition applyAlphaMask (img : Canvas) (m : Mask) : option Canvas :=
  if (mask_width m =? width img) && (mask_height m =? height img) then
    Some (mkCanvas (width img) (height img)
            (fun x y =>
               let p := pixels img x y in
               mkColor (red p) (green p) (blue p)
                       (rdiv (alpha p * mask_values m x y) 255)))
  else None.

(** Section 4.3: [strokeWidth] passes [t = 0 .. strokeWidth - 1], each
    growing the box by [t / 2] and drawing a thin curve over
    [[startDeg, endDeg]]. *)
Definition arc_passes (bb : BBox) (startDeg endDeg : Z) (c : Color)
  (thin strokeWidth : Z) : list ArcOp :=
  map (fun t => mkArcOp (expand bb (t / 2)) startDeg endDeg c thin)
      (Py.range strokeWidth).

(** Section 4.4: the offsets of the outline pass. *)
Definition outline_offset (outlineRadius dx dy : Z) : Prop :=
  Z.max (Z.abs dx) (Z.abs dy) <= outlineRadius /\ (dx, dy) <> (0, 0).

(** Section 4.3, strategy (b), on the body of [create_gold_icon.py]: the
    same rows, blended only inside the rounded rectangle of the body. *)
Definition gold_body_rounded (cv : Canvas) : Canvas :=
  let bb := (GoldIcon.padlock_x, GoldIcon.body_top,
             GoldIcon.padlock_x + GoldIcon.body_width,
             GoldIcon.body_top + GoldIcon.body_height) in
  Py.for_range GoldIcon.body_height
    (fun i acc =>
       paint (fun x y =>
                in_rectangle (GoldIcon.padlock_x, GoldIcon.body_top + i,
                              GoldIcon.padlock_x + GoldIcon.body_width,
                              GoldIcon.body_top + i + 1) x y
                && in_rounded_rectangle bb GoldIcon.corner_size x y)
             (GoldIcon.body_color GoldIcon.body_height i) acc)
    (GoldIcon.border (GoldIcon.background_disc cv)).

(** Section 7: a render whose source is missing is skipped and reported,
    and the batch goes on to its end. *)
Definition missing_source_policy (needs_source reports : Step -> bool)
  (r : Run) : bool :=
  negb (existsb needs_source (fst r)) && existsb reports (fst r)
  && match snd r with Completed => true | Exited _ => false end.

End Spec.

(** The exact value of [a (1 - t) + b t] at [t = i / n], truncated as
    [int()] does (all values here are non-negative). *)
Definition lerp_trunc (a b i n : Z) : Z := (a * (n - i) + b * i) / n.

Definition lerp_trunc_color (A B : Color) (i n : Z) : Color :=
  mkColor (lerp_trunc (red A) (red B) i n) (lerp_trunc (green A) (green B) i n)
          (lerp_trunc (blue A) (blue B) i n) 255.

(** ** Basic facts *)

Lemma rdiv_mul (n d : Z) : 0 < d -> rdiv (n * d) d = n.
Proof.
  intros Hd. unfold rdiv.
  replace (2 * (n * d) + d) with (d + n * (2 * d)) by lia.
  rewrite Z.div_add by lia.
  rewrite Z.div_small by lia. lia.
Qed.

Lemma blend_opaque (dst src : Color) : opaque src -> blend dst src = src.
Proof.
  unfold opaque, blend. destruct src as [r g b a]. cbn [alpha red green blue].
  intros ->.
  assert (Hwa : 255 * 255 + alpha dst * (255 - 255) = 65025) by lia.
  rewrite Hwa. change (65025 =? 0) with false. cbv iota.
  assert (Hch : forall s d,
             rdiv (s * 255 * 255 + d * alpha dst * (255 - 255)) 65025 = s).
  { intros s d.
    replace (s * 255 * 255 + d * alpha dst * (255 - 255)) with (s * 65025)
      by lia.
    apply rdiv_mul. lia. }
  rewrite !Hch. reflexivity.
Qed.

Lemma paint_covered (mask : Z -> Z -> bool) (c : Color) (cv : Canvas) (x y : Z) :
  in_bounds cv x y = true -> mask x y = true ->
  pixels (paint mask c cv) x y = blend (pixels cv x y) c.
Proof. intros Hb Hm. simpl. rewrite Hb, Hm. reflexivity. Qed.

Lemma paint_uncovered (mask : Z -> Z -> bool) (c : Color) (cv : Canvas) (x y : Z) :
  mask x y = false -> pixels (paint mask c cv) x y = pixels cv x y.
Proof. intros Hm. simpl. rewrite Hm, andb_false_r. reflexivity. Qed.

Lemma in_bounds_paint (mask : Z -> Z -> bool) (c : Color) (cv : Canvas) (x y : Z) :
  in_bounds (paint mask c cv) x y = in_bounds cv x y.
Proof. reflexivity. Qed.



(** ** Geometry of the ring boxes *)

Lemma square_le_bound (a i : Z) : 0 <= i -> a ^ 2 <= i ^ 2 -> - i <= a <= i.
Proof. intros Hi H. nia. Qed.

Lemma in_ellipse_ring (c i x y : Z) :
  0 <= i -> in_ellipse (ring_bbox c i) x y = (dist2 c x y <=? i ^ 2).
Proof.
  intros Hi. unfold in_ellipse, ring_bbox, dist2.
  apply Bool.eq_iff_eq_true.
  rewrite !andb_true_iff, !Z.leb_le.
  replace ((2 * x - (c - i) - (c + i)) ^ 2 * (c + i - (c - i)) ^ 2
           + (2 * y - (c - i) - (c + i)) ^ 2 * (c + i - (c - i)) ^ 2)
    with (16 * i ^ 2 * ((x - c) ^ 2 + (y - c) ^ 2)) by ring.
  replace ((c + i - (c - i)) ^ 2 * (c + i - (c - i)) ^ 2)
    with (16 * i ^ 2 * i ^ 2) by ring.
  split.
  - intros [[[[Hx0 Hx1] Hy0] Hy1] H].
    destruct (Z.eq_dec i 0) as [-> | Hne].
    + assert (x = c) by lia. assert (y = c) by lia. subst. simpl. lia.
    + apply Z.mul_le_mono_pos_l in H; [assumption | nia].
  - intros H.
    assert (Hx : (x - c) ^ 2 <= i ^ 2) by nia.
    assert (Hy : (y - c) ^ 2 <= i ^ 2) by nia.
    apply square_le_bound in Hx; [|assumption].
    apply square_le_bound in Hy; [|assumption].
    repeat split; try lia.
    apply Z.mul_le_mono_nonneg_l; [nia | assumption].
Qed.

Lemma ring_box_is_ring_bbox (c r i : Z) :
  SvgIcon.ring_box c r i = ring_bbox c (r - i).
Proof.
  unfold SvgIcon.ring_box, ring_bbox.
  replace (c - r + i) with (c - (r - i)) by lia.
  replace (c + r - i) with (c + (r - i)) by lia.
  reflexivity.
Qed.

Lemma dist2_nonneg (c x y : Z) : 0 <= dist2 c x y.
Proof. unfold dist2. nia. Qed.

Lemma dist2_le_ceil (c x y j : Z) :
  0 <= j -> dist2 c x y <= j ^ 2 <-> ceil_dist c x y <= j.
Proof.
  intros Hj. unfold ceil_dist. rewrite Z.pow_2_r.
  apply Z.sqrt_up_le_square; [apply dist2_nonneg | assumption].
Qed.

(** ** Loops *)

Lemma range_of_nat (n : nat) : Py.range (Z.of_nat n) = map Z.of_nat (seq 0 n).
Proof. unfold Py.range. now rewrite Nat2Z.id. Qed.

Lemma range_succ (n : nat) :
  Py.range (Z.of_nat (S n)) = Py.range (Z.of_nat n) ++ [Z.of_nat n].
Proof. rewrite !range_of_nat, seq_S, map_app. reflexivity. Qed.

Lemma for_range_succ {S' : Type} (n : nat) (body : Z -> S' -> S') (s : S') :
  Py.for_range (Z.of_nat (S n)) body s
  = body (Z.of_nat n) (Py.for_range (Z.of_nat n) body s).
Proof. unfold Py.for_range. rewrite range_succ, fold_left_app. reflexivity. Qed.

Lemma for_range_zero {S' : Type} (body : Z -> S' -> S') (s : S') :
  Py.for_range 0 body s = s.
Proof. reflexivity. Qed.

Lemma range_length (n : Z) : 0 <= n -> Z.of_nat (List.length (Py.range n)) = n.
Proof.
  intros Hn. unfold Py.range. rewrite length_map, length_seq. lia.
Qed.

Lemma range_nth (n i : Z) :
  0 <= i < n -> nth (Z.to_nat i) (Py.range n) 0 = i.
Proof.
  intros Hi. unfold Py.range.
  change 0 with (Z.of_nat 0%nat) at 1.
  rewrite map_nth, seq_nth by lia. lia.
Qed.

Lemma in_range (n i : Z) : In i (Py.range n) <-> 0 <= i < n.
Proof.
  unfold Py.range. rewrite in_map_iff. split.
  - intros [k [<- Hk]]. apply in_seq in Hk. lia.
  - intros Hi. exists (Z.to_nat i). split; [lia|]. apply in_seq. lia.
Qed.

Lemma for_range_in_bounds (n : nat) (body : Z -> Canvas -> Canvas) :
  (forall i cv x y, in_bounds (body i cv) x y = in_bounds cv x y) ->
  forall cv x y,
    in_bounds (Py.for_range (Z.of_nat n) body cv) x y = in_bounds cv x y.
Proof.
  intros Hbody cv x y. induction n as [|n IH].
  - reflexivity.
  - rewrite for_range_succ, Hbody. exact IH.
Qed.

Lemma for_range_replays {A : Type} (n : Z) (f : Z -> A)
  (draw : A -> Canvas -> Canvas) (cv : Canvas) :
  Py.for_range n (fun i acc => draw (f i) acc) cv
  = fold_left (fun acc a => draw a acc) (map f (Py.range n)) cv.
Proof.
  unfold Py.for_range. generalize (Py.range n) cv.
  induction l as [|i l IH]; intros cv0; simpl; [reflexivity | apply IH].
Qed.

Lemma ellipse_pixel (bb : BBox) (k : Color) (cv : Canvas) (x y : Z) :
  opaque k -> in_bounds cv x y = true ->
  pixels (ellipse bb k cv) x y
  = if in_ellipse bb x y then k else pixels cv x y.
Proof.
  intros Hk Hin. unfold ellipse. simpl. rewrite Hin. simpl.
  destruct (in_ellipse bb x y); [now apply blend_opaque | reflexivity].
Qed.

Lemma rectangle_pixel (bb : BBox) (k : Color) (cv : Canvas) (x y : Z) :
  opaque k -> in_bounds cv x y = true ->
  pixels (rectangle bb k cv) x y
  = if in_rectangle bb x y then k else pixels cv x y.
Proof.
  intros Hk Hin. unfold rectangle. simpl. rewrite Hin. simpl.
  destruct (in_rectangle bb x y); [now apply blend_opaque | reflexivity].
Qed.

Section RingLoops.

Variable col : Z -> Color.
Hypothesis col_opaque : forall i, opaque (col i).
Variable c : Z.

(** Circles of growing radius [0, 1, ..]: after the loop every pixel of
    the last disc carries the last colour. *)
Lemma growing_rings_pixel (n : nat) (cv : Canvas) (x y : Z) :
  in_bounds cv x y = true ->
  pixels (Py.for_range (Z.of_nat (S n))
            (fun i acc => ellipse (ring_bbox c i) (col i) acc) cv) x y
  = if dist2 c x y <=? Z.of_nat n ^ 2 then col (Z.of_nat n)
    else pixels cv x y.
Proof.
  intros Hin. induction n as [|n IH].
  - rewrite for_range_succ, for_range_zero.
    rewrite ellipse_pixel, in_ellipse_ring by (auto; lia). reflexivity.
  - rewrite for_range_succ.
    rewrite ellipse_pixel, in_ellipse_ring; auto; try lia.
    + rewrite IH.
      destruct (Z.leb_spec (dist2 c x y) (Z.of_nat (S n) ^ 2)) as [H1|H1];
        [reflexivity|].
      destruct (Z.leb_spec (dist2 c x y) (Z.of_nat n ^ 2)) as [H2|H2];
        [nia | reflexivity].
    + rewrite for_range_in_bounds; [assumption | reflexivity].
Qed.

(** Circles of shrinking radius [R, R - 1, ..]: after [n + 1] of them a
    pixel within reach carries the colour of the last circle that still
    covers it. *)
Lemma shrinking_rings_pixel (R : Z) (n : nat) (cv : Canvas) (x y : Z) :
  Z.of_nat n < R -> in_bounds cv x y = true ->
  pixels (Py.for_range (Z.of_nat (S n))
            (fun i acc => ellipse (ring_bbox c (R - i)) (col i) acc) cv) x y
  = if ceil_dist c x y <=? R
    then col (Z.min (Z.of_nat n) (R - ceil_dist c x y))
    else pixels cv x y.
Proof.
  intros Hn Hin. induction n as [|n IH].
  - rewrite for_range_succ, for_range_zero.
    rewrite ellipse_pixel, in_ellipse_ring by (auto; simpl; lia).
    simpl Z.of_nat. rewrite Z.sub_0_r.
    destruct (Z.leb_spec (dist2 c x y) (R ^ 2)) as [H1|H1];
      destruct (Z.leb_spec (ceil_dist c x y) R) as [H2|H2];
      try reflexivity.
    + now rewrite Z.min_l by lia.
    + apply dist2_le_ceil in H1; lia.
    + apply dist2_le_ceil in H2; lia.
  - rewrite for_range_succ.
    rewrite ellipse_pixel, in_ellipse_ring; auto; try lia.
    + rewrite IH by lia.
      destruct (Z.leb_spec (dist2 c x y) ((R - Z.of_nat (S n)) ^ 2))
        as [H1|H1].
      * apply dist2_le_ceil in H1; [|lia].
        destruct (Z.leb_spec (ceil_dist c x y) R) as [H2|H2]; [|lia].
        now rewrite Z.min_l by lia.
      * assert (H3 : R - Z.of_nat (S n) < ceil_dist c x y).
        { apply Z.nle_gt. intros H3. apply dist2_le_ceil in H3; lia. }
        destruct (Z.leb_spec (ceil_dist c x y) R) as [H2|H2];
          [|reflexivity].
        rewrite !Z.min_r by lia. reflexivity.
    + rewrite for_range_in_bounds; [assumption | reflexivity].
Qed.

End RingLoops.

Lemma for_range_ext {S' : Type} (n : Z) (f g : Z -> S' -> S') (s : S') :
  (forall i a, 0 <= i < n -> f i a = g i a) ->
  Py.for_range n f s = Py.for_range n g s.
Proof.
  intros Hfg. unfold Py.for_range.
  assert (Hin : forall i, In i (Py.range n) -> 0 <= i < n)
    by (intros i; apply in_range).
  revert s Hin. generalize (Py.range n).
  induction l as [|i l IH]; intros s Hin; simpl; [reflexivity|].
  rewrite Hfg by (apply Hin; now left).
  apply IH. intros j Hj. apply Hin. now right.
Qed.

(** A property checked on every index of a [range] holds on the range. *)
Lemma range_check (n : Z) (p : Z -> bool) :
  forallb p (Py.range n) = true -> forall i, 0 <= i < n -> p i = true.
Proof.
  intros H i Hi. rewrite forallb_forall in H. apply H. now apply in_range.
Qed.

Lemma Color_eqb_eq (c d : Color) : Color_eqb c d = true -> c = d.
Proof.
  unfold Color_eqb. rewrite !andb_true_iff, !Z.eqb_eq.
  destruct c, d; simpl. intros [[[-> ->] ->] ->]. reflexivity.
Qed.

Lemma nth_map_range {A : Type} (f : Z -> A) (n i : Z) (d : A) :
  0 <= i < n -> nth (Z.to_nat i) (map f (Py.range n)) d = f i.
Proof.
  intros Hi.
  rewrite (nth_indep _ d (f 0))
    by (rewrite length_map; apply Nat2Z.inj_lt; rewrite range_length; lia).
  rewrite map_nth, range_nth by lia. reflexivity.
Qed.

Lemma loop_in_bounds (n : Z) (body : Z -> Canvas -> Canvas) :
  (forall i cv x y, in_bounds (body i cv) x y = in_bounds cv x y) ->
  forall cv x y, in_bounds (Py.for_range n body cv) x y = in_bounds cv x y.
Proof.
  intros Hbody. unfold Py.for_range. generalize (Py.range n).
  induction l as [|i l IH]; intros cv x y; simpl; [reflexivity|].
  rewrite IH. apply Hbody.
Qed.

(** ** Ring gradients *)

Lemma svg_ring_color_opaque (R i : Z) : opaque (SvgIcon.ring_color R i).
Proof. reflexivity. Qed.

Lemma custom_ring_color_opaque (R i : Z) : opaque (CustomIcon.ring_color R i).
Proof. reflexivity. Qed.

Lemma icon_ring_color_opaque (R i : Z) : opaque (Icon.ring_color R i).
Proof. reflexivity. Qed.

(** The ring gradient of [convert_svg_icon.py] at a pixel. *)
Lemma svg_gradient_pixel (c R : Z) (cv : Canvas) (x y : Z) :
  1 <= R -> in_bounds cv x y = true ->
  pixels (SvgIcon.gradient c R cv) x y
  = if ceil_dist c x y <=? R
    then SvgIcon.ring_color R (Z.min (R - 1) (R - ceil_dist c x y))
    else pixels cv x y.
Proof.
  intros HR Hin. unfold SvgIcon.gradient.
  rewrite (for_range_ext R _
             (fun i acc => ellipse (ring_bbox c (R - i))
                                   (SvgIcon.ring_color R i) acc))
    by (intros i a _; now rewrite ring_box_is_ring_bbox).
  replace R with (Z.of_nat (S (Z.to_nat (R - 1)))) at 1 by lia.
  rewrite (shrinking_rings_pixel (SvgIcon.ring_color R)
             (svg_ring_color_opaque R) c R) by (auto; lia).
  replace (Z.of_nat (Z.to_nat (R - 1))) with (R - 1) by lia.
  reflexivity.
Qed.

Lemma custom_gradient_pixel (c R : Z) (cv : Canvas) (x y : Z) :
  1 <= R -> in_bounds cv x y = true ->
  pixels (CustomIcon.gradient c R cv) x y
  = if dist2 c x y <=? (R - 1) ^ 2 then CustomIcon.ring_color R (R - 1)
    else pixels cv x y.
Proof.
  intros HR Hin. unfold CustomIcon.gradient.
  replace R with (Z.of_nat (S (Z.to_nat (R - 1)))) at 1 by lia.
  rewrite (growing_rings_pixel (CustomIcon.ring_color R)
             (custom_ring_color_opaque R) c) by assumption.
  replace (Z.of_nat (Z.to_nat (R - 1))) with (R - 1) by lia.
  reflexivity.
Qed.

Lemma icon_gradient_pixel (c : Z) (cv : Canvas) (x y : Z) :
  1 <= c -> in_bounds cv x y = true ->
  pixels (Icon.gradient c cv) x y
  = if dist2 c x y <=? (c - 1) ^ 2 then Icon.ring_color c (c - 1)
    else pixels cv x y.
Proof.
  intros HR Hin. unfold Icon.gradient.
  replace c with (Z.of_nat (S (Z.to_nat (c - 1)))) at 1 by lia.
  rewrite (growing_rings_pixel (Icon.ring_color c)
             (icon_ring_color_opaque c) c) by assumption.
  replace (Z.of_nat (Z.to_nat (c - 1))) with (c - 1) by lia.
  reflexivity.
Qed.

(** C10: in [create_custom_icon.py] and [create_icon.py] the loop index
    grows from 0 to radius - 1 and iteration [i] draws the disc of radius
    [i]; a later, larger disc covers every earlier one, so after the loop
    each pixel of the last disc holds the colour of the last iteration,
    the truncated interpolation at (radius - 1) / radius, and every other
    pixel is untouched: a solid disc, (138, 92, 245) and (115, 58, 236) in
    the two scripts. *)
Theorem growing_rings_leave_solid_disc (c R : Z) (cv : Canvas) (x y : Z) :
  1 <= R -> 1 <= c -> in_bounds cv x y = true ->
  (forall i, 0 <= i < R ->
     nth (Z.to_nat i) (CustomIcon.ring_ops c R) (ring_bbox 0 0, transparent)
     = (ring_bbox c i, CustomIcon.ring_color R i))
  /\ (forall i, 0 <= i < c ->
     nth (Z.to_nat i) (Icon.ring_ops c) (ring_bbox 0 0, transparent)
     = (ring_bbox c i, Icon.ring_color c i))
  /\ CustomIcon.gradient c R cv = draw_rings (CustomIcon.ring_ops c R) cv
  /\ Icon.gradient c cv = draw_rings (Icon.ring_ops c) cv
  /\ (forall i j, 0 <= i <= j ->
        in_ellipse (ring_bbox c i) x y = true ->
        in_ellipse (ring_bbox c j) x y = true)
  /\ getpixel (CustomIcon.gradient c R cv) x y
     = Some (if dist2 c x y <=? (R - 1) ^ 2
             then CustomIcon.ring_color R (R - 1) else pixels cv x y)
  /\ getpixel (Icon.gradient c cv) x y
     = Some (if dist2 c x y <=? (c - 1) ^ 2
             then Icon.ring_color c (c - 1) else pixels cv x y)
  /\ CustomIcon.ring_color CustomIcon.radius (CustomIcon.radius - 1)
     = mkColor (lerp_trunc 101 139 479 480) (lerp_trunc 99 92 479 480)
               (lerp_trunc 229 246 479 480) 255
  /\ CustomIcon.ring_color CustomIcon.radius (CustomIcon.radius - 1)
     = mkColor 138 92 245 255
  /\ Icon.ring_color Icon.center (Icon.center - 1)
     = mkColor (lerp_trunc 79 116 511 512) (lerp_trunc 70 58 511 512)
               (lerp_trunc 229 237 511 512) 255
  /\ Icon.ring_color Icon.center (Icon.center - 1) = mkColor 115 58 236 255.
Proof.
  intros HR Hc Hin.
  split.
  { intros i Hi. unfold CustomIcon.ring_ops. now rewrite nth_map_range. }
  split.
  { intros i Hi. unfold Icon.ring_ops. now rewrite nth_map_range. }
  split.
  { unfold CustomIcon.gradient, CustomIcon.ring_ops, draw_rings.
    apply (for_range_replays R
             (fun i => (ring_bbox c i, CustomIcon.ring_color R i))
             (fun op acc => ellipse (fst op) (snd op) acc)). }
  split.
  { unfold Icon.gradient, Icon.ring_ops, draw_rings.
    apply (for_range_replays c
             (fun i => (ring_bbox c i, Icon.ring_color c i))
             (fun op acc => ellipse (fst op) (snd op) acc)). }
  split.
  { intros i j Hij. rewrite !in_ellipse_ring by lia.
    rewrite !Z.leb_le. nia. }
  split.
  { unfold getpixel, CustomIcon.gradient.
    rewrite loop_in_bounds by reflexivity. rewrite Hin.
    f_equal. now apply custom_gradient_pixel. }
  split.
  { unfold getpixel, Icon.gradient.
    rewrite loop_in_bounds by reflexivity. rewrite Hin.
    f_equal. now apply icon_gradient_pixel. }
  repeat split; vm_compute; reflexivity.
Qed.

Lemma growing_rings_leave_solid_disc_witness :
  getpixel (CustomIcon.gradient 512 480 (newCanvas 1024 1024)) 600 300
  = Some (mkColor 138 92 245 255)
  /\ getpixel (Icon.gradient 512 (newCanvas 1024 1024)) 600 300
     = Some (mkColor 115 58 236 255).
Proof.
  assert (H1 : 1 <= 480) by lia.
  assert (H2 : 1 <= 512) by lia.
  assert (H3 : in_bounds (newCanvas 1024 1024) 600 300 = true) by reflexivity.
  destruct (growing_rings_leave_solid_disc 512 480 (newCanvas 1024 1024)
              600 300 H1 H2 H3)
    as (_ & _ & _ & _ & _ & Hc & Hi & _ & Hcc & _ & Hic).
  split.
  - rewrite Hc. change (CustomIcon.ring_color 480 (480 - 1))
      with (CustomIcon.ring_color CustomIcon.radius (CustomIcon.radius - 1)).
    rewrite Hcc. reflexivity.
  - rewrite Hi. change (Icon.ring_color 512 (512 - 1))
      with (Icon.ring_color Icon.center (Icon.center - 1)).
    rewrite Hic. reflexivity.
Defined.

(** C1, as the scripts have it: the ring gradient of
    [convert_svg_icon.py] and [create_emoji_icon.py] runs [i] from 0 to
    radius - 1, takes the colour at [t = i / radius] (truncated by
    [int()], so within one unit of the rounded interpolation) and draws the
    disc of radius [radius - i]: the radii fall strictly from [radius] to 1,
    and a pixel of the [i]-th disc ends with the colour of that disc or of
    a later, smaller one. *)
Theorem shrinking_rings_paint_order (c R : Z) (cv : Canvas) :
  1 <= R ->
  SvgIcon.gradient c R cv = draw_rings (SvgIcon.ring_ops c R) cv
  /\ EmojiIcon.gradient c R cv = SvgIcon.gradient c R cv
  /\ EmojiIcon.ring_ops c R = SvgIcon.ring_ops c R
  /\ Z.of_nat (List.length (SvgIcon.ring_ops c R)) = R
  /\ (forall i, 0 <= i < R ->
        nth (Z.to_nat i) (SvgIcon.ring_ops c R) (ring_bbox 0 0, transparent)
        = (ring_bbox c (R - i), SvgIcon.ring_color R i))
  /\ (forall i j, 0 <= i < j -> j < R ->
        bbox_radius
          (fst (nth (Z.to_nat j) (SvgIcon.ring_ops c R)
                    (ring_bbox 0 0, transparent)))
        < bbox_radius
            (fst (nth (Z.to_nat i) (SvgIcon.ring_ops c R)
                      (ring_bbox 0 0, transparent))))
  /\ (forall x y i, in_bounds cv x y = true -> 0 <= i < R ->
        in_ellipse (ring_bbox c (R - i)) x y = true ->
        exists k, i <= k < R
                  /\ getpixel (SvgIcon.gradient c R cv) x y
                     = Some (SvgIcon.ring_color R k))
  /\ (forall i, 0 <= i < SvgIcon.radius_of SvgIcon.size ->
        within1 (SvgIcon.ring_color (SvgIcon.radius_of SvgIcon.size) i)
                (Spec.lerp_color indigo violet i
                   (SvgIcon.radius_of SvgIcon.size)) = true)
  /\ (forall i, 0 <= i < EmojiIcon.radius ->
        within1 (SvgIcon.ring_color EmojiIcon.radius i)
                (Spec.lerp_color indigo violet i EmojiIcon.radius) = true).
Proof.
  intros HR.
  assert (Hnth : forall i, 0 <= i < R ->
            nth (Z.to_nat i) (SvgIcon.ring_ops c R) (ring_bbox 0 0, transparent)
            = (ring_bbox c (R - i), SvgIcon.ring_color R i)).
  { intros i Hi. unfold SvgIcon.ring_ops.
    rewrite nth_map_range by assumption.
    now rewrite ring_box_is_ring_bbox. }
  assert (Hrad : forall i, bbox_radius (ring_bbox c i) = i).
  { intros i. unfold bbox_radius, ring_bbox.
    replace (c + i - (c - i)) with (i * 2) by lia.
    apply Z.div_mul. lia. }
  split.
  { unfold SvgIcon.gradient, SvgIcon.ring_ops, draw_rings.
    apply (for_range_replays R
             (fun i => (SvgIcon.ring_box c R i, SvgIcon.ring_color R i))
             (fun op acc => ellipse (fst op) (snd op) acc)). }
  split; [reflexivity|].
  split; [reflexivity|].
  split.
  { unfold SvgIcon.ring_ops. rewrite length_map. apply range_length. lia. }
  split; [exact Hnth|].
  split.
  { intros i j Hij HjR. rewrite !Hnth by lia. cbn [fst]. rewrite !Hrad. lia. }
  split.
  { intros x y i Hin Hi Hcov.
    rewrite in_ellipse_ring in Hcov by lia.
    apply Z.leb_le in Hcov. apply dist2_le_ceil in Hcov; [|lia].
    exists (Z.min (R - 1) (R - ceil_dist c x y)).
    split; [lia|].
    unfold getpixel, SvgIcon.gradient.
    rewrite loop_in_bounds by reflexivity. rewrite Hin. f_equal.
    fold (SvgIcon.gradient c R cv).
    rewrite svg_gradient_pixel by assumption.
    destruct (Z.leb_spec (ceil_dist c x y) R); [reflexivity | lia]. }
  split.
  { apply (range_check (SvgIcon.radius_of SvgIcon.size)
             (fun i => within1
                         (SvgIcon.ring_color (SvgIcon.radius_of SvgIcon.size) i)
                         (Spec.lerp_color indigo violet i
                            (SvgIcon.radius_of SvgIcon.size)))).
    vm_compute. reflexivity. }
  { apply (range_check EmojiIcon.radius
             (fun i => within1 (SvgIcon.ring_color EmojiIcon.radius i)
                         (Spec.lerp_color indigo violet i EmojiIcon.radius))).
    vm_compute. reflexivity. }
Qed.

Lemma shrinking_rings_paint_order_witness :
  Z.of_nat (List.length (SvgIcon.ring_ops 512 480)) = 480
  /\ nth 0 (SvgIcon.ring_ops 512 480) (ring_bbox 0 0, transparent)
     = (ring_bbox 512 480, indigo)
  /\ exists k, 0 <= k < 480
               /\ getpixel (SvgIcon.gradient 512 480 (newCanvas 1024 1024))
                    512 32
                  = Some (SvgIcon.ring_color 480 k).
Proof.
  assert (H1 : 1 <= 480) by lia.
  destruct (shrinking_rings_paint_order 512 480 (newCanvas 1024 1024) H1)
    as (_ & _ & _ & Hlen & Hnth & _ & Htop & _).
  split; [exact Hlen|].
  split.
  - assert (H0 : 0 <= 0 < 480) by lia.
    exact (Hnth 0 H0).
  - assert (H0 : 0 <= 0 < 480) by lia.
    apply (Htop 512 32 0); [reflexivity | exact H0 | reflexivity].
Defined.

(** C1 as worded fails on the scripts: the first disc of
    [convert_svg_icon.py] has radius 480 and the colour of [t = 0], where
    the worded loop starts with the colour of [t = 1]; the discs of
    [create_custom_icon.py] start at radius 0 and grow. *)
Lemma ring_order_not_as_worded :
  hd_error (SvgIcon.ring_ops 512 480) = Some (ring_bbox 512 480, indigo)
  /\ hd_error (Spec.ring_ops 512 480 indigo violet)
     = Some (ring_bbox 512 480, violet)
  /\ SvgIcon.ring_ops 512 480 <> Spec.ring_ops 512 480 indigo violet
  /\ map (fun op => bbox_radius (fst op))
         (firstn 3 (CustomIcon.ring_ops 512 480)) = [0; 1; 2]
  /\ CustomIcon.ring_ops 512 480
     <> Spec.ring_ops 512 480 (mkColor 101 99 229 255) (mkColor 139 92 246 255).
Proof.
  split; [vm_compute; reflexivity|].
  split; [vm_compute; reflexivity|].
  split.
  { intros H. apply (f_equal (@hd_error RingOp)) in H.
    vm_compute in H. discriminate H. }
  split; [vm_compute; reflexivity|].
  intros H. apply (f_equal (@hd_error RingOp)) in H.
  vm_compute in H. discriminate H.
Qed.

Lemma svg_radius_values :
  SvgIcon.radius_of 512 = 240 /\ SvgIcon.radius_of SvgIcon.size = 480.
Proof. split; vm_compute; reflexivity. Qed.

(** C2, as the script has it: for the ring gradient from (79, 70, 229) to
    (124, 58, 237) with radius 240, a pixel at distance [d <= 240] from the
    centre ends with the colour of ring [240 - ceil(d)] (ring 239 at the
    centre itself), which is within one unit per channel of
    [lerp(colorA, colorB, (240 - ceil(d)) / 240)]: the outer edge is colorA
    and the centre approaches colorB. *)
Theorem ring_pixel_quantized (c : Z) (cv : Canvas) (x y : Z) :
  in_bounds cv x y = true -> ceil_dist c x y <= 240 ->
  exists k,
    getpixel (SvgIcon.gradient c 240 cv) x y = Some k
    /\ k = SvgIcon.ring_color 240 (Z.min 239 (240 - ceil_dist c x y))
    /\ within1 k (Spec.lerp_color indigo violet (240 - ceil_dist c x y) 240)
       = true
    /\ (ceil_dist c x y = 240 -> k = indigo)
    /\ (ceil_dist c x y = 0 -> within1 k violet = true).
Proof.
  intros Hin Hd.
  assert (H0 : 0 <= ceil_dist c x y) by apply Z.sqrt_up_nonneg.
  exists (SvgIcon.ring_color 240 (Z.min 239 (240 - ceil_dist c x y))).
  split.
  { unfold getpixel, SvgIcon.gradient.
    rewrite loop_in_bounds by reflexivity. rewrite Hin. f_equal.
    fold (SvgIcon.gradient c 240 cv).
    rewrite svg_gradient_pixel by (assumption || lia).
    destruct (Z.leb_spec (ceil_dist c x y) 240); [reflexivity | lia]. }
  split; [reflexivity|].
  split.
  { apply (range_check 241
             (fun s => within1
                         (SvgIcon.ring_color 240 (Z.min 239 (240 - s)))
                         (Spec.lerp_color indigo violet (240 - s) 240)));
      [vm_compute; reflexivity | lia]. }
  split.
  { intros ->. vm_compute. reflexivity. }
  { intros ->. vm_compute. reflexivity. }
Qed.

Lemma ring_pixel_quantized_witness :
  exists k,
    getpixel (SvgIcon.gradient 256 240 (newCanvas 512 512)) 496 256 = Some k
    /\ k = SvgIcon.ring_color 240 (Z.min 239 (240 - ceil_dist 256 496 256))
    /\ within1 k (Spec.lerp_color indigo violet
                    (240 - ceil_dist 256 496 256) 240) = true
    /\ (ceil_dist 256 496 256 = 240 -> k = indigo)
    /\ (ceil_dist 256 496 256 = 0 -> within1 k violet = true).
Proof.
  apply (ring_pixel_quantized 256 (newCanvas 512 512) 496 256).
  - reflexivity.
  - vm_compute. discriminate.
Defined.

(** C2 as worded fails: on the outer edge ([d = 240]) the pixel is colorA,
    45 units of red away from [lerp(colorA, colorB, 240 / 240) = colorB]. *)
Lemma ring_pixel_not_ceil_lerp :
  getpixel (SvgIcon.gradient 256 240 (newCanvas 512 512)) 496 256
  = Some indigo
  /\ ceil_dist 256 496 256 = 240
  /\ Spec.ring_pixel 256 240 indigo violet 496 256 = violet
  /\ within1 indigo violet = false.
Proof. repeat split; vm_compute; reflexivity. Qed.

(** ** Interpolated channels *)

Lemma range_check_eq (n : Z) (f g : Z -> Color) :
  forallb (fun i => Color_eqb (f i) (g i)) (Py.range n) = true ->
  forall i, 0 <= i < n -> f i = g i.
Proof.
  intros H i Hi. apply Color_eqb_eq.
  now apply (range_check n (fun i => Color_eqb (f i) (g i))).
Qed.

(** C3, as the scripts have it: every channel of the gradient loops is the
    value [a (1 - t) + b t] cut by [int()], that is truncated and not
    rounded to nearest.  On every linear gradient ([t = y / height]) and
    every radial one ([t = i / radius]) this is the integer part of the
    exact value, but for ring 40 of [convert_svg_icon.py], where the
    binary64 sum for green is just below the exact 69 and is cut to 68. *)
Theorem gradient_channels_truncated (i : Z) :
  (0 <= i < StoreAssets.height ->
     StoreAssets.row_color StoreAssets.height i
     = lerp_trunc_color indigo (mkColor 116 58 237 255) i StoreAssets.height)
  /\ (0 <= i < EmojiIcon.body_height ->
     EmojiIcon.body_color EmojiIcon.body_height i
     = lerp_trunc_color EmojiIcon.gold_body EmojiIcon.gold_dark i
         EmojiIcon.body_height)
  /\ (0 <= i < GoldIcon.body_height ->
     GoldIcon.body_color GoldIcon.body_height i
     = lerp_trunc_color GoldIcon.gold_main GoldIcon.gold_dark i
         GoldIcon.body_height)
  /\ (0 <= i < CustomIcon.radius ->
     CustomIcon.ring_color CustomIcon.radius i
     = lerp_trunc_color (mkColor 101 99 229 255) (mkColor 139 92 246 255) i
         CustomIcon.radius)
  /\ (0 <= i < Icon.center ->
     Icon.ring_color Icon.center i
     = lerp_trunc_color indigo (mkColor 116 58 237 255) i Icon.center)
  /\ (0 <= i < EmojiIcon.radius ->
     SvgIcon.ring_color EmojiIcon.radius i
     = lerp_trunc_color indigo violet i EmojiIcon.radius)
  /\ (0 <= i < SvgIcon.radius_of SvgIcon.size -> i <> 40 ->
     SvgIcon.ring_color (SvgIcon.radius_of SvgIcon.size) i
     = lerp_trunc_color indigo violet i (SvgIcon.radius_of SvgIcon.size))
  /\ SvgIcon.ring_color (SvgIcon.radius_of SvgIcon.size) 40
     = mkColor 82 68 229 255
  /\ lerp_trunc_color indigo violet 40 (SvgIcon.radius_of SvgIcon.size)
     = mkColor 82 69 229 255.
Proof.
  split.
  { apply (range_check_eq StoreAssets.height
             (StoreAssets.row_color StoreAssets.height)
             (fun i => lerp_trunc_color indigo (mkColor 116 58 237 255) i
                         StoreAssets.height)).
    vm_compute. reflexivity. }
  split.
  { apply (range_check_eq EmojiIcon.body_height
             (EmojiIcon.body_color EmojiIcon.body_height)
             (fun i => lerp_trunc_color EmojiIcon.gold_body EmojiIcon.gold_dark
                         i EmojiIcon.body_height)).
    vm_compute. reflexivity. }
  split.
  { apply (range_check_eq GoldIcon.body_height
             (GoldIcon.body_color GoldIcon.body_height)
             (fun i => lerp_trunc_color GoldIcon.gold_main GoldIcon.gold_dark
                         i GoldIcon.body_height)).
    vm_compute. reflexivity. }
  split.
  { apply (range_check_eq CustomIcon.radius
             (CustomIcon.ring_color CustomIcon.radius)
             (fun i => lerp_trunc_color (mkColor 101 99 229 255)
                         (mkColor 139 92 246 255) i CustomIcon.radius)).
    vm_compute. reflexivity. }
  split.
  { apply (range_check_eq Icon.center (Icon.ring_color Icon.center)
             (fun i => lerp_trunc_color indigo (mkColor 116 58 237 255) i
                         Icon.center)).
    vm_compute. reflexivity. }
  split.
  { apply (range_check_eq EmojiIcon.radius
             (SvgIcon.ring_color EmojiIcon.radius)
             (fun i => lerp_trunc_color indigo violet i EmojiIcon.radius)).
    vm_compute. reflexivity. }
  split.
  { intros Hi Hne. apply Color_eqb_eq.
    assert (H : ((i =? 40)
                 || Color_eqb
                      (SvgIcon.ring_color (SvgIcon.radius_of SvgIcon.size) i)
                      (lerp_trunc_color indigo violet i
                         (SvgIcon.radius_of SvgIcon.size))) = true).
    { apply (range_check (SvgIcon.radius_of SvgIcon.size)
               (fun i => (i =? 40)
                         || Color_eqb
                              (SvgIcon.ring_color
                                 (SvgIcon.radius_of SvgIcon.size) i)
                              (lerp_trunc_color indigo violet i
                                 (SvgIcon.radius_of SvgIcon.size))));
        [vm_compute; reflexivity | exact Hi]. }
    apply orb_true_iff in H. destruct H as [H|H]; [|exact H].
    apply Z.eqb_eq in H. contradiction. }
  split; vm_compute; reflexivity.
Qed.

Lemma gradient_channels_truncated_witness :
  StoreAssets.row_color StoreAssets.height 7
  = lerp_trunc_color indigo (mkColor 116 58 237 255) 7 StoreAssets.height
  /\ EmojiIcon.body_color EmojiIcon.body_height 7
     = lerp_trunc_color EmojiIcon.gold_body EmojiIcon.gold_dark 7
         EmojiIcon.body_height
  /\ SvgIcon.ring_color (SvgIcon.radius_of SvgIcon.size) 7
     = lerp_trunc_color indigo violet 7 (SvgIcon.radius_of SvgIcon.size).
Proof.
  destruct (gradient_channels_truncated 7)
    as (Hs & He & _ & _ & _ & _ & Hv & _).
  split; [apply Hs; vm_compute; split; [discriminate | reflexivity]|].
  split; [apply He; vm_compute; split; [discriminate | reflexivity]|].
  apply Hv; [vm_compute; split; [discriminate | reflexivity] | discriminate].
Defined.

(** C3 as worded fails: row 7 of the banner gradient has red 79, where
    [round(79 + 37 * 7 / 500) = round(79.518) = 80]; row 1 of the emoji
    body has red 254, where [round(254.807) = 255]. *)
Lemma gradient_channel_not_rounded :
  red (StoreAssets.row_color StoreAssets.height 7)
  <> Spec.lerp 79 116 7 StoreAssets.height
  /\ red (StoreAssets.row_color StoreAssets.height 7) = 79
  /\ Spec.lerp 79 116 7 StoreAssets.height = 80
  /\ red (EmojiIcon.body_color EmojiIcon.body_height 1) = 254
  /\ Spec.lerp 255 218 1 EmojiIcon.body_height = 255.
Proof.
  split; [vm_compute; discriminate|].
  repeat split; vm_compute; reflexivity.
Qed.

(** ** Alpha mask *)

(** C5, as the script has it: [putalpha] with a mask of the image's size
    sets each pixel's alpha to the mask value itself, whatever the alpha
    was, and keeps R, G and B.  This is the product of the previous alpha
    with [mask / 255] where the previous alpha is 255 or the mask is 0; where
    the mask is 255, the only other value of the script's circular mask, it
    is the product exactly when the previous alpha is 255; and a transparent
    pixel stays transparent exactly where the mask is 0. *)
Theorem putalpha_replaces_alpha (img : Canvas) (m : Mask) (x y : Z) :
  mask_width m = width img -> mask_height m = height img ->
  0 <= alpha (pixels img x y) <= 255 -> 0 <= mask_values m x y <= 255 ->
  exists out,
    putalpha img m = Some out
    /\ width out = width img /\ height out = height img
    /\ alpha (pixels out x y) = mask_values m x y
    /\ red (pixels out x y) = red (pixels img x y)
    /\ green (pixels out x y) = green (pixels img x y)
    /\ blue (pixels out x y) = blue (pixels img x y)
    /\ (alpha (pixels img x y) = 255 \/ mask_values m x y = 0 ->
        alpha (pixels out x y)
        = rdiv (alpha (pixels img x y) * mask_values m x y) 255)
    /\ (mask_values m x y = 255 ->
        (alpha (pixels out x y)
         = rdiv (alpha (pixels img x y) * mask_values m x y) 255
         <-> alpha (pixels img x y) = 255))
    /\ (alpha (pixels img x y) = 0 ->
        (alpha (pixels out x y) = 0 <-> mask_values m x y = 0))
    /\ (mask_values StoreAssets.circular_mask x y = 0
        \/ mask_values StoreAssets.circular_mask x y = 255)
    /\ StoreAssets.masked_icon img = putalpha img StoreAssets.circular_mask.
Proof.
  intros Hw Hh Ha Hm. unfold putalpha.
  rewrite Hw, Hh, !Z.eqb_refl. cbn [andb].
  eexists. split; [reflexivity|].
  cbn [width height pixels alpha red green blue].
  repeat (split; [reflexivity|]).
  split.
  { intros [H255 | H0].
    - rewrite H255, Z.mul_comm. symmetry. apply rdiv_mul. lia.
    - rewrite H0, Z.mul_0_r. reflexivity. }
  split.
  { intros H255. rewrite H255, rdiv_mul by lia. split; intros H; lia. }
  split.
  { intros _. reflexivity. }
  split; [|reflexivity].
  unfold StoreAssets.circular_mask. cbn [mask_values].
  destruct ((0 <=? x) && (x <? StoreAssets.icon_size) && (0 <=? y)
            && (y <? StoreAssets.icon_size)
            && in_ellipse (20, 20, StoreAssets.icon_size - 20,
                           StoreAssets.icon_size - 20) x y);
    [right | left]; reflexivity.
Qed.

Lemma putalpha_replaces_alpha_witness :
  exists out,
    putalpha (mkCanvas 300 300 (fun _ _ => indigo)) StoreAssets.circular_mask
    = Some out
    /\ width out = 300 /\ height out = 300
    /\ alpha (pixels out 150 150) = 255
    /\ red (pixels out 150 150) = 79
    /\ green (pixels out 150 150) = 70
    /\ blue (pixels out 150 150) = 229
    /\ (255 = 255 \/ 255 = 0 -> alpha (pixels out 150 150) = rdiv (255 * 255) 255)
    /\ (255 = 255 ->
        (alpha (pixels out 150 150) = rdiv (255 * 255) 255 <-> 255 = 255))
    /\ (255 = 0 -> (alpha (pixels out 150 150) = 0 <-> 255 = 0))
    /\ (mask_values StoreAssets.circular_mask 150 150 = 0
        \/ mask_values StoreAssets.circular_mask 150 150 = 255)
    /\ StoreAssets.masked_icon (mkCanvas 300 300 (fun _ _ => indigo))
       = putalpha (mkCanvas 300 300 (fun _ _ => indigo))
           StoreAssets.circular_mask.
Proof.
  apply (putalpha_replaces_alpha (mkCanvas 300 300 (fun _ _ => indigo))
           StoreAssets.circular_mask 150 150);
    [reflexivity | reflexivity | vm_compute; split; discriminate
    | vm_compute; split; discriminate].
Defined.

(** C5 as worded fails: a transparent pixel under mask value 255 becomes
    opaque in the script, where the product of the alphas is 0. *)
Lemma putalpha_not_a_product :
  option_map (fun out => alpha (pixels out 150 150))
    (StoreAssets.masked_icon (newCanvas 300 300)) = Some 255
  /\ option_map (fun out => alpha (pixels out 150 150))
       (Spec.applyAlphaMask (newCanvas 300 300) StoreAssets.circular_mask)
     = Some 0
  /\ StoreAssets.masked_icon (newCanvas 300 300)
     <> Spec.applyAlphaMask (newCanvas 300 300) StoreAssets.circular_mask.
Proof.
  split; [vm_compute; reflexivity|].
  split; [vm_compute; reflexivity|].
  intros H.
  apply (f_equal (option_map (fun out => alpha (pixels out 150 150)))) in H.
  vm_compute in H. discriminate H.
Qed.

(** ** Corner rounding *)

(** C6 on the scripts: the corner overdraw of [create_gold_icon.py]
    (discs centred on the corners of the body) paints the pixel 10 right
    and 10 below the top-left corner in the background colour, while the
    per-pixel corner test keeps it inside the rounded body; the corner
    squares of [create_emoji_icon.py] paint the very corner pixel in the
    last body colour, while the corner test leaves it out. *)
Theorem corner_overdraw_differs_from_corner_test :
  getpixel (GoldIcon.body (newCanvas 1024 1024))
    (GoldIcon.padlock_x + 10) (GoldIcon.body_top + 10)
  = Some GoldIcon.background
  /\ getpixel (Spec.gold_body_rounded (newCanvas 1024 1024))
       (GoldIcon.padlock_x + 10) (GoldIcon.body_top + 10)
     = Some (GoldIcon.body_color GoldIcon.body_height 10)
  /\ GoldIcon.body_color GoldIcon.body_height 10 <> GoldIcon.background
  /\ getpixel
       (EmojiIcon.body
          (EmojiIcon.gradient EmojiIcon.center EmojiIcon.radius
             (newCanvas 1024 1024)))
       EmojiIcon.body_x EmojiIcon.body_y
     = Some (EmojiIcon.body_color EmojiIcon.body_height
               (EmojiIcon.body_height - 1))
  /\ in_rounded_rectangle
       (EmojiIcon.body_x, EmojiIcon.body_y,
        EmojiIcon.body_x + EmojiIcon.body_width,
        EmojiIcon.body_y + EmojiIcon.body_height)
       EmojiIcon.corner_r EmojiIcon.body_x EmojiIcon.body_y = false.
Proof.
  split; [vm_compute; reflexivity|].
  split; [vm_compute; reflexivity|].
  split; [vm_compute; discriminate|].
  split; vm_compute; reflexivity.
Qed.

(** ** Text outline *)

Lemma in_range2 (lo hi k : Z) : In k (Py.range2 lo hi) <-> lo <= k < hi.
Proof.
  unfold Py.range2. rewrite in_map_iff. split.
  - intros [j [<- Hj]]. apply in_range in Hj. lia.
  - intros Hk. exists (k - lo). split; [lia|]. apply in_range. lia.
Qed.

(** The outline loop of [create_gold_icon.py] draws the text in black at
    exactly the offsets of section 4.4 for radius 4, 80 times in all, and
    the main text comes last. *)
Lemma gold_outline_offsets (tx ty dx dy : Z) :
  In (mkTextOp (tx + dx) (ty + dy) (mkColor 0 0 0 255))
     (GoldIcon.outline_ops tx ty)
  <-> Spec.outline_offset GoldIcon.outline_size dx dy.
Proof.
  unfold GoldIcon.outline_ops, Spec.outline_offset, GoldIcon.outline_size.
  rewrite in_flat_map. split.
  - intros [ax [Hax H]]. apply in_flat_map in H. destruct H as [ay [Hay H]].
    apply in_range2 in Hax. apply in_range2 in Hay.
    destruct (negb (ax =? 0) || negb (ay =? 0)) eqn:Hg; [|destruct H].
    destruct H as [H|[]]. injection H as Hx Hy.
    assert (ax = dx) by lia. assert (ay = dy) by lia. subst ax ay.
    split; [lia|].
    intros Heq. injection Heq as -> ->. discriminate Hg.
  - intros [Hmax Hne]. exists dx. split; [apply in_range2; lia|].
    apply in_flat_map. exists dy. split; [apply in_range2; lia|].
    destruct (negb (dx =? 0) || negb (dy =? 0)) eqn:Hg; [now left|].
    apply orb_false_iff in Hg. destruct Hg as [Hx Hy].
    apply negb_false_iff, Z.eqb_eq in Hx.
    apply negb_false_iff, Z.eqb_eq in Hy. subst. now elim Hne.
Qed.

Lemma gold_text_order (tx ty : Z) :
  List.length (GoldIcon.outline_ops tx ty) = 80%nat
  /\ last (GoldIcon.text_ops tx ty) (mkTextOp 0 0 transparent)
     = mkTextOp tx ty (mkColor 255 255 255 255).
Proof.
  split; [vm_compute; reflexivity|].
  unfold GoldIcon.text_ops. apply last_last.
Qed.

(** C7 on the scripts: the outline loop of [create_visible_icon.py] has no
    guard; it draws the text 49 times, once of them at the origin itself
    (offset (0, 0), which is no offset of section 4.4), before the main
    text is drawn last. *)
Theorem visible_outline_draws_center (tx ty : Z) :
  In (mkTextOp tx ty (mkColor 255 255 255 255)) (VisibleIcon.outline_ops tx ty)
  /\ List.length (VisibleIcon.outline_ops tx ty) = 49%nat
  /\ ~ Spec.outline_offset 3 0 0
  /\ last (VisibleIcon.text_ops tx ty) (mkTextOp 0 0 transparent)
     = mkTextOp tx ty VisibleIcon.purple.
Proof.
  split.
  { unfold VisibleIcon.outline_ops. apply in_flat_map.
    exists 0. split; [apply in_range2; lia|].
    apply in_map_iff. exists 0. split; [|apply in_range2; lia].
    now rewrite !Z.add_0_r. }
  split; [vm_compute; reflexivity|].
  split.
  { intros [_ H]. now apply H. }
  unfold VisibleIcon.text_ops. apply last_last.
Qed.

(** ** Stroked arcs *)

(** C8 on the scripts: the shackle passes of [create_emoji_icon.py] and
    [create_gold_icon.py] are the passes of section 4.3 (box grown by
    [t / 2], curve 3 resp. 4 units wide, 25 resp. 35 passes), but
    [create_visible_icon.py] grows the box by [t] itself: its pass 1 already
    differs. *)
Theorem visible_shackle_grows_by_index :
  EmojiIcon.shackle_ops
  = Spec.arc_passes
      (EmojiIcon.shackle_x, EmojiIcon.shackle_y,
       EmojiIcon.shackle_x + EmojiIcon.shackle_width,
       EmojiIcon.shackle_y + EmojiIcon.shackle_height)
      180 360 EmojiIcon.gold_body 3 EmojiIcon.thickness
  /\ GoldIcon.shackle_ops
     = Spec.arc_passes
         (GoldIcon.shackle_x, GoldIcon.shackle_y,
          GoldIcon.shackle_x + GoldIcon.shackle_width,
          GoldIcon.shackle_y + GoldIcon.shackle_height)
         180 360 GoldIcon.gold_main 4 GoldIcon.shackle_thickness
  /\ VisibleIcon.shackle_ops
     = map (fun t =>
              mkArcOp
                (expand (VisibleIcon.shackle_x, VisibleIcon.shackle_y,
                         VisibleIcon.shackle_x + VisibleIcon.shackle_width,
                         VisibleIcon.shackle_y + VisibleIcon.shackle_height) t)
                180 360 (mkColor 255 255 255 255) 3)
           (Py.range 25)
  /\ option_map arc_bbox (nth_error VisibleIcon.shackle_ops 1)
     = Some (431, 391, 593, 513)
  /\ option_map arc_bbox
       (nth_error
          (Spec.arc_passes
             (VisibleIcon.shackle_x, VisibleIcon.shackle_y,
              VisibleIcon.shackle_x + VisibleIcon.shackle_width,
              VisibleIcon.shackle_y + VisibleIcon.shackle_height)
             180 360 (mkColor 255 255 255 255) 3 25) 1)
     = Some (432, 392, 592, 512)
  /\ VisibleIcon.shackle_ops
     <> Spec.arc_passes
          (VisibleIcon.shackle_x, VisibleIcon.shackle_y,
           VisibleIcon.shackle_x + VisibleIcon.shackle_width,
           VisibleIcon.shackle_y + VisibleIcon.shackle_height)
          180 360 (mkColor 255 255 255 255) 3 25.
Proof.
  split; [vm_compute; reflexivity|].
  split; [vm_compute; reflexivity|].
  split; [vm_compute; reflexivity|].
  split; [vm_compute; reflexivity|].
  split; [vm_compute; reflexivity|].
  intros H. apply (f_equal (fun l => nth_error l 1)) in H.
  vm_compute in H. discriminate H.
Qed.

(** ** Missing main icon *)




(** ** Opaque layers *)

(** C4: source-over blending of a fully opaque colour gives exactly that
    colour over any destination, in particular over the transparent pixel,
    and a pixel covered by an opaque layer A and then by an opaque layer B
    holds B's colour; so every pixel of the document rectangle of
    [create_icon.py] is white, whatever the gradient left there. *)
Theorem opaque_source_over_is_source
  (dst src a b : Color) (maskA maskB : Z -> Z -> bool) (cv : Canvas) (x y : Z) :
  opaque src -> opaque a -> opaque b ->
  in_bounds cv x y = true -> maskA x y = true -> maskB x y = true ->
  blend dst src = src
  /\ blend transparent src = src
  /\ getpixel (paint maskB b (paint maskA a cv)) x y = Some b
  /\ (in_rectangle (Icon.doc_x, Icon.doc_y, Icon.doc_x + Icon.doc_width,
                    Icon.doc_y + Icon.doc_height) x y = true ->
      getpixel Icon.background_and_document x y
      = Some (mkColor 255 255 255 255)).
Proof.
  intros Hs Ha Hb Hin HA HB.
  split; [now apply blend_opaque|].
  split; [now apply blend_opaque|].
  split.
  { unfold getpixel. rewrite !in_bounds_paint, Hin.
    rewrite paint_covered by (rewrite ?in_bounds_paint; assumption).
    now rewrite blend_opaque. }
  intros Hdoc.
  assert (Hxy : in_bounds (newCanvas Icon.size Icon.size) x y = true).
  { change (Icon.doc_x, Icon.doc_y, Icon.doc_x + Icon.doc_width,
            Icon.doc_y + Icon.doc_height)
      with (412, 382, 612, 642) in Hdoc.
    unfold in_rectangle in Hdoc.
    rewrite !andb_true_iff, !Z.leb_le in Hdoc.
    unfold in_bounds, newCanvas, Icon.size. cbn [width height].
    rewrite !andb_true_iff, !Z.leb_le, !Z.ltb_lt. lia. }
  unfold getpixel, Icon.background_and_document, rectangle.
  rewrite in_bounds_paint. unfold Icon.gradient at 1.
  rewrite loop_in_bounds by reflexivity. rewrite Hxy.
  rewrite paint_covered;
    [now rewrite blend_opaque | | assumption].
  unfold Icon.gradient. now rewrite loop_in_bounds by reflexivity.
Qed.

Lemma opaque_source_over_is_source_witness :
  blend (mkColor 10 20 30 40) (mkColor 199 210 254 255) = mkColor 199 210 254 255
  /\ blend transparent (mkColor 199 210 254 255) = mkColor 199 210 254 255
  /\ getpixel
       (paint (in_rectangle (412, 382, 612, 642)) (mkColor 255 255 255 255)
          (paint (in_ellipse (1, 1, 1023, 1023)) (mkColor 115 58 236 255)
             (newCanvas 1024 1024))) 512 512
     = Some (mkColor 255 255 255 255)
  /\ (in_rectangle (Icon.doc_x, Icon.doc_y, Icon.doc_x + Icon.doc_width,
                    Icon.doc_y + Icon.doc_height) 512 512 = true ->
      getpixel Icon.background_and_document 512 512
      = Some (mkColor 255 255 255 255)).
Proof.
  apply (opaque_source_over_is_source (mkColor 10 20 30 40)
           (mkColor 199 210 254 255) (mkColor 115 58 236 255)
           (mkColor 255 255 255 255) (in_ellipse (1, 1, 1023, 1023))
           (in_rectangle (412, 382, 612, 642)) (newCanvas 1024 1024) 512 512);
    reflexivity.
Defined.

(** ** Row gradients *)

Section RowLoops.

Variable col : Z -> Color.
Hypothesis col_opaque : forall i, opaque (col i).
Variables x0 x1 y0 : Z.

(** Rectangles two rows tall, one row further down at each step: every
    row but the last is repainted by the next step, so row [y0 + i] ends
    with the colour of step [i] and the row below the last step keeps the
    last colour. *)
Lemma row_loop_pixel (n : nat) (cv : Canvas) (x y : Z) :
  in_bounds cv x y = true ->
  pixels (Py.for_range (Z.of_nat n)
            (fun i acc => rectangle (x0, y0 + i, x1, y0 + i + 1) (col i) acc)
            cv) x y
  = if (0 <? Z.of_nat n)
       && in_rectangle (x0, y0, x1, y0 + Z.of_nat n) x y
    then col (Z.min (y - y0) (Z.of_nat n - 1))
    else pixels cv x y.
Proof.
  intros Hin. induction n as [|n IH].
  - reflexivity.
  - rewrite for_range_succ.
    rewrite rectangle_pixel;
      [| apply col_opaque
       | rewrite for_range_in_bounds; [assumption | reflexivity]].
    rewrite IH. unfold in_rectangle.
    destruct (Z.leb_spec x0 x), (Z.leb_spec x x1),
      (Z.leb_spec (y0 + Z.of_nat n) y), (Z.leb_spec y (y0 + Z.of_nat n + 1)),
      (Z.leb_spec y0 y), (Z.leb_spec y (y0 + Z.of_nat (S n))),
      (Z.leb_spec y (y0 + Z.of_nat n)),
      (Z.ltb_spec 0 (Z.of_nat n)), (Z.ltb_spec 0 (Z.of_nat (S n)));
      cbn [andb]; try reflexivity; try lia; f_equal; lia.
Qed.

End RowLoops.

Lemma row_loop_pixel_Z (col : Z -> Color) (x0 x1 y0 n : Z) (cv : Canvas)
  (x y : Z) :
  (forall i, opaque (col i)) -> 0 <= n -> in_bounds cv x y = true ->
  pixels (Py.for_range n
            (fun i acc => rectangle (x0, y0 + i, x1, y0 + i + 1) (col i) acc)
            cv) x y
  = if (0 <? n) && in_rectangle (x0, y0, x1, y0 + n) x y
    then col (Z.min (y - y0) (n - 1))
    else pixels cv x y.
Proof.
  intros Hcol Hn Hin.
  replace n with (Z.of_nat (Z.to_nat n)) by lia.
  now apply row_loop_pixel.
Qed.

(** X1: the banner gradient of [create_store_assets.py] draws rectangles
    two rows tall, yet every row [y] of the banner ends with the colour of
    its own step [y]: the lower row of each rectangle is repainted by the
    next step, and the lower row of the last one falls below the banner.
    On a taller canvas that row 500 would keep the colour of step 499. *)
Theorem banner_gradient_rows (cv : Canvas) (x y : Z) :
  in_bounds cv x y = true ->
  getpixel (StoreAssets.gradient cv) x y
  = Some (if in_rectangle (0, 0, StoreAssets.width, StoreAssets.height) x y
          then StoreAssets.row_color StoreAssets.height
                 (Z.min y (StoreAssets.height - 1))
          else pixels cv x y)
  /\ (width cv = StoreAssets.width -> height cv = StoreAssets.height ->
      getpixel (StoreAssets.gradient cv) x y
      = Some (StoreAssets.row_color StoreAssets.height y)).
Proof.
  intros Hin.
  assert (Hpix : pixels (StoreAssets.gradient cv) x y
                 = if in_rectangle (0, 0, StoreAssets.width, StoreAssets.height)
                        x y
                   then StoreAssets.row_color StoreAssets.height
                          (Z.min y (StoreAssets.height - 1))
                   else pixels cv x y).
  { unfold StoreAssets.gradient.
    rewrite (for_range_ext StoreAssets.height _
               (fun i acc =>
                  rectangle (0, 0 + i, StoreAssets.width, 0 + i + 1)
                            (StoreAssets.row_color StoreAssets.height i) acc))
      by (intros i a _; reflexivity).
    rewrite row_loop_pixel_Z;
      [| reflexivity | unfold StoreAssets.height; lia | assumption].
    change (0 <? StoreAssets.height) with true. cbn [andb].
    rewrite Z.sub_0_r. reflexivity. }
  assert (Hget : getpixel (StoreAssets.gradient cv) x y
                 = Some (pixels (StoreAssets.gradient cv) x y)).
  { unfold getpixel, StoreAssets.gradient.
    rewrite loop_in_bounds by reflexivity. now rewrite Hin. }
  split.
  - now rewrite Hget, Hpix.
  - intros Hw Hh. rewrite Hget, Hpix. f_equal.
    unfold in_bounds in Hin. rewrite Hw, Hh in Hin.
    unfold StoreAssets.width, StoreAssets.height in Hin |- * .
    rewrite !andb_true_iff, !Z.leb_le, !Z.ltb_lt in Hin.
    unfold in_rectangle.
    destruct (Z.leb_spec 0 x), (Z.leb_spec x 1024), (Z.leb_spec 0 y),
      (Z.leb_spec y 500); cbn [andb]; try lia.
    f_equal. lia.
Qed.

Lemma banner_gradient_rows_witness :
  getpixel (StoreAssets.gradient (newCanvas 1024 500)) 1023 499
  = Some (if in_rectangle (0, 0, StoreAssets.width, StoreAssets.height)
               1023 499
          then StoreAssets.row_color StoreAssets.height
                 (Z.min 499 (StoreAssets.height - 1))
          else pixels (newCanvas 1024 500) 1023 499)
  /\ (width (newCanvas 1024 500) = StoreAssets.width ->
      height (newCanvas 1024 500) = StoreAssets.height ->
      getpixel (StoreAssets.gradient (newCanvas 1024 500)) 1023 499
      = Some (StoreAssets.row_color StoreAssets.height 499)).
Proof.
  apply (banner_gradient_rows (newCanvas 1024 500) 1023 499). reflexivity.
Defined.

(** X2: the body loop of [create_emoji_icon.py] paints exactly the pixels
    of the box [[body_x, body_y, body_x + body_width, body_y +
    body_height]], all opaque: row [body_y + y] in the colour of step [y],
    and one more row at the bottom, [body_y + body_height], which the last
    rectangle adds in the last colour; every other pixel is untouched. *)
Theorem emoji_body_rows (cv : Canvas) (x y : Z) :
  in_bounds cv x y = true ->
  getpixel (EmojiIcon.body_gradient cv) x y
  = Some (if in_rectangle
               (EmojiIcon.body_x, EmojiIcon.body_y,
                EmojiIcon.body_x + EmojiIcon.body_width,
                EmojiIcon.body_y + EmojiIcon.body_height) x y
          then EmojiIcon.body_color EmojiIcon.body_height
                 (Z.min (y - EmojiIcon.body_y) (EmojiIcon.body_height - 1))
          else pixels cv x y).
Proof.
  intros Hin. unfold getpixel, EmojiIcon.body_gradient.
  rewrite loop_in_bounds by reflexivity. rewrite Hin. f_equal.
  rewrite row_loop_pixel_Z;
    [| reflexivity | vm_compute; discriminate | assumption].
  change (0 <? EmojiIcon.body_height) with true. reflexivity.
Qed.

Lemma emoji_body_rows_witness :
  getpixel (EmojiIcon.body_gradient (newCanvas 1024 1024)) 400 640
  = Some (if in_rectangle
               (EmojiIcon.body_x, EmojiIcon.body_y,
                EmojiIcon.body_x + EmojiIcon.body_width,
                EmojiIcon.body_y + EmojiIcon.body_height) 400 640
          then EmojiIcon.body_color EmojiIcon.body_height
                 (Z.min (640 - EmojiIcon.body_y) (EmojiIcon.body_height - 1))
          else pixels (newCanvas 1024 1024) 400 640).
Proof.
  apply (emoji_body_rows (newCanvas 1024 1024) 400 640). reflexivity.
Defined.

(** X3: the body loop of [create_gold_icon.py] paints exactly the pixels
    of the box [[padlock_x, body_top, padlock_x + body_width, body_top +
    body_height]], all opaque: row [body_top + i] in the colour of step
    [i], the extra row [body_top + body_height] in the last colour; every
    other pixel is untouched. *)
Theorem gold_body_rows (cv : Canvas) (x y : Z) :
  in_bounds cv x y = true ->
  getpixel (GoldIcon.body_gradient cv) x y
  = Some (if in_rectangle
               (GoldIcon.padlock_x, GoldIcon.body_top,
                GoldIcon.padlock_x + GoldIcon.body_width,
                GoldIcon.body_top + GoldIcon.body_height) x y
          then GoldIcon.body_color GoldIcon.body_height
                 (Z.min (y - GoldIcon.body_top) (GoldIcon.body_height - 1))
          else pixels cv x y).
Proof.
  intros Hin. unfold getpixel, GoldIcon.body_gradient.
  rewrite loop_in_bounds by reflexivity. rewrite Hin. f_equal.
  rewrite row_loop_pixel_Z;
    [| reflexivity | vm_compute; discriminate | assumption].
  change (0 <? GoldIcon.body_height) with true. reflexivity.
Qed.

Lemma gold_body_rows_witness :
  getpixel (GoldIcon.body_gradient (newCanvas 1024 1024)) 322 722
  = Some (if in_rectangle
               (GoldIcon.padlock_x, GoldIcon.body_top,
                GoldIcon.padlock_x + GoldIcon.body_width,
                GoldIcon.body_top + GoldIcon.body_height) 322 722
          then GoldIcon.body_color GoldIcon.body_height
                 (Z.min (722 - GoldIcon.body_top) (GoldIcon.body_height - 1))
          else pixels (newCanvas 1024 1024) 322 722).
Proof.
  apply (gold_body_rows (newCanvas 1024 1024) 322 722). reflexivity.
Defined.

(** ** Shape of the gradients *)

Lemma gradual_sound (A B : Color) (f : Z -> Color) (n : Z) :
  gradual A B f n = true -> Gradual A B f n.
Proof.
  unfold gradual, Gradual. rewrite andb_true_iff. intros [H0 Hall].
  split; [now apply Color_eqb_eq|].
  intros i Hi.
  pose proof (range_check n _ Hall i Hi) as H. cbv beta in H.
  apply andb_true_iff in H. destruct H as [Hb Ht].
  split; [exact Hb|].
  intros Hlt. apply orb_true_iff in Ht. destruct Ht as [Ht|Ht]; [|exact Ht].
  apply Z.leb_le in Ht. lia.
Qed.

(** X4: the ring gradient of [convert_svg_icon.py] and
    [create_emoji_icon.py] paints exactly the disc of its radius: a pixel
    farther than [radius] from the centre is untouched, a pixel within is
    opaque, its colour depends only on [ceil(d)] (one colour per ring), and
    the centre pixel and its four neighbours share the colour of the
    smallest ring. *)
Theorem ring_gradient_covers_disc (c R : Z) (cv : Canvas) (x y x' y' : Z) :
  1 <= R -> in_bounds cv x y = true -> in_bounds cv x' y' = true ->
  (R < ceil_dist c x y ->
     getpixel (SvgIcon.gradient c R cv) x y = Some (pixels cv x y))
  /\ (ceil_dist c x y <= R ->
      exists k, getpixel (SvgIcon.gradient c R cv) x y = Some k /\ opaque k)
  /\ (ceil_dist c x y <= R -> ceil_dist c x' y' = ceil_dist c x y ->
      getpixel (SvgIcon.gradient c R cv) x' y'
      = getpixel (SvgIcon.gradient c R cv) x y)
  /\ (dist2 c x y <= 1 ->
      getpixel (SvgIcon.gradient c R cv) x y
      = Some (SvgIcon.ring_color R (R - 1))).
Proof.
  intros HR Hin Hin'.
  assert (Hget : forall u v, in_bounds cv u v = true ->
            getpixel (SvgIcon.gradient c R cv) u v
            = Some (if ceil_dist c u v <=? R
                    then SvgIcon.ring_color R
                           (Z.min (R - 1) (R - ceil_dist c u v))
                    else pixels cv u v)).
  { intros u v Huv. unfold getpixel, SvgIcon.gradient.
    rewrite loop_in_bounds by reflexivity. rewrite Huv. f_equal.
    fold (SvgIcon.gradient c R cv). now apply svg_gradient_pixel. }
  rewrite !Hget by assumption.
  split.
  { intros Hfar. destruct (Z.leb_spec (ceil_dist c x y) R); [lia | reflexivity]. }
  split.
  { intros Hnear. destruct (Z.leb_spec (ceil_dist c x y) R); [|lia].
    eexists. split; reflexivity. }
  split.
  { intros Hnear Heq. rewrite Heq.
    destruct (Z.leb_spec (ceil_dist c x y) R); [reflexivity | lia]. }
  intros Hd.
  assert (H1 : ceil_dist c x y <= 1).
  { apply dist2_le_ceil; lia. }
  assert (H0 : 0 <= ceil_dist c x y) by apply Z.sqrt_up_nonneg.
  destruct (Z.leb_spec (ceil_dist c x y) R); [|lia].
  do 2 f_equal. lia.
Qed.

Lemma ring_gradient_covers_disc_witness :
  (480 < ceil_dist 512 20 20 ->
     getpixel (SvgIcon.gradient 512 480 (newCanvas 1024 1024)) 20 20
     = Some (pixels (newCanvas 1024 1024) 20 20))
  /\ (ceil_dist 512 20 20 <= 480 ->
      exists k,
        getpixel (SvgIcon.gradient 512 480 (newCanvas 1024 1024)) 20 20
        = Some k /\ opaque k)
  /\ (ceil_dist 512 20 20 <= 480 ->
      ceil_dist 512 1003 1003 = ceil_dist 512 20 20 ->
      getpixel (SvgIcon.gradient 512 480 (newCanvas 1024 1024)) 1003 1003
      = getpixel (SvgIcon.gradient 512 480 (newCanvas 1024 1024)) 20 20)
  /\ (dist2 512 20 20 <= 1 ->
      getpixel (SvgIcon.gradient 512 480 (newCanvas 1024 1024)) 20 20
      = Some (SvgIcon.ring_color 480 (480 - 1))).
Proof.
  apply (ring_gradient_covers_disc 512 480 (newCanvas 1024 1024)
           20 20 1003 1003); [lia | reflexivity | reflexivity].
Defined.

(** X5: in each ring loop ([convert_svg_icon.py], [create_emoji_icon.py],
    [create_custom_icon.py], [create_icon.py]) the first colour is the
    start colour exactly, every channel of every step stays between its two
    end values, and no channel ever steps back from one ring to the next,
    the truncation by [int()] notwithstanding. *)
Theorem ring_colors_gradual :
  Gradual indigo violet
    (SvgIcon.ring_color (SvgIcon.radius_of SvgIcon.size))
    (SvgIcon.radius_of SvgIcon.size)
  /\ Gradual indigo violet (SvgIcon.ring_color EmojiIcon.radius)
       EmojiIcon.radius
  /\ Gradual (mkColor 101 99 229 255) (mkColor 139 92 246 255)
       (CustomIcon.ring_color CustomIcon.radius) CustomIcon.radius
  /\ Gradual indigo (mkColor 116 58 237 255)
       (Icon.ring_color Icon.center) Icon.center.
Proof.
  split; [|split; [|split]]; apply gradual_sound; vm_compute; reflexivity.
Qed.

(** X6: in each row loop (banner of [create_store_assets.py], padlock
    bodies of [create_emoji_icon.py] and [create_gold_icon.py]) the first
    row has the start colour exactly, every channel of every row stays
    between its two end values, and no channel steps back from one row to
    the next. *)
Theorem row_colors_gradual :
  Gradual indigo (mkColor 116 58 237 255)
    (StoreAssets.row_color StoreAssets.height) StoreAssets.height
  /\ Gradual EmojiIcon.gold_body EmojiIcon.gold_dark
       (EmojiIcon.body_color EmojiIcon.body_height) EmojiIcon.body_height
  /\ Gradual GoldIcon.gold_main GoldIcon.gold_dark
       (GoldIcon.body_color GoldIcon.body_height) GoldIcon.body_height.
Proof.
  split; [|split]; apply gradual_sound; vm_compute; reflexivity.
Qed.

(** ** Stroke passes *)

Lemma half_even (k : Z) : 2 * k / 2 = k.
Proof. rewrite Z.mul_comm. apply Z.div_mul. lia. Qed.

Lemma half_odd (k : Z) : (2 * k + 1) / 2 = k.
Proof. symmetry. apply (Z.div_unique (2 * k + 1) 2 k 1); lia. Qed.

(** X7: in the shackle and hollow loops of [create_gold_icon.py] and
    [create_emoji_icon.py] the box grows by [t // 2], so pass [2k + 1]
    repeats the arc of pass [2k]; the last shackle pass has grown the box
    by 17 (gold) and 12 (emoji) on each side.  In
    [create_visible_icon.py] no two passes draw the same box and the last
    one has grown it by 24. *)
Theorem arc_passes_pair_up (k : Z) :
  (0 <= k -> 2 * k + 1 < GoldIcon.shackle_thickness ->
     nth (Z.to_nat (2 * k + 1)) GoldIcon.shackle_ops no_arc
     = nth (Z.to_nat (2 * k)) GoldIcon.shackle_ops no_arc)
  /\ (0 <= k -> 2 * k + 1 < 40 ->
      nth (Z.to_nat (2 * k + 1)) GoldIcon.hollow_ops no_arc
      = nth (Z.to_nat (2 * k)) GoldIcon.hollow_ops no_arc)
  /\ (0 <= k -> 2 * k + 1 < EmojiIcon.thickness ->
      nth (Z.to_nat (2 * k + 1)) EmojiIcon.shackle_ops no_arc
      = nth (Z.to_nat (2 * k)) EmojiIcon.shackle_ops no_arc)
  /\ (0 <= k -> 2 * k + 1 < 20 ->
      nth (Z.to_nat (2 * k + 1)) EmojiIcon.hollow_ops no_arc
      = nth (Z.to_nat (2 * k)) EmojiIcon.hollow_ops no_arc)
  /\ (forall s t, 0 <= s < t -> t < 25 ->
        arc_bbox (nth (Z.to_nat s) VisibleIcon.shackle_ops no_arc)
        <> arc_bbox (nth (Z.to_nat t) VisibleIcon.shackle_ops no_arc))
  /\ arc_bbox (last GoldIcon.shackle_ops no_arc)
     = expand (GoldIcon.shackle_x, GoldIcon.shackle_y,
               GoldIcon.shackle_x + GoldIcon.shackle_width,
               GoldIcon.shackle_y + GoldIcon.shackle_height) 17
  /\ arc_bbox (last EmojiIcon.shackle_ops no_arc)
     = expand (EmojiIcon.shackle_x, EmojiIcon.shackle_y,
               EmojiIcon.shackle_x + EmojiIcon.shackle_width,
               EmojiIcon.shackle_y + EmojiIcon.shackle_height) 12
  /\ arc_bbox (last VisibleIcon.shackle_ops no_arc)
     = expand (VisibleIcon.shackle_x, VisibleIcon.shackle_y,
               VisibleIcon.shackle_x + VisibleIcon.shackle_width,
               VisibleIcon.shackle_y + VisibleIcon.shackle_height) 24.
Proof.
  split.
  { intros Hk Hlt. unfold GoldIcon.shackle_ops.
    unfold GoldIcon.shackle_thickness in Hlt |- * .
    rewrite !nth_map_range by lia. now rewrite half_even, half_odd. }
  split.
  { intros Hk Hlt. unfold GoldIcon.hollow_ops.
    rewrite !nth_map_range by lia. now rewrite half_even, half_odd. }
  split.
  { intros Hk Hlt. unfold EmojiIcon.shackle_ops.
    unfold EmojiIcon.thickness in Hlt |- * .
    rewrite !nth_map_range by lia. now rewrite half_even, half_odd. }
  split.
  { intros Hk Hlt. unfold EmojiIcon.hollow_ops.
    rewrite !nth_map_range by lia. now rewrite half_even, half_odd. }
  split.
  { intros s t Hst Ht. unfold VisibleIcon.shackle_ops.
    rewrite !nth_map_range by lia. cbn [arc_bbox].
    intros H. apply (f_equal (fun bb : BBox => fst (fst (fst bb)))) in H.
    cbn [fst] in H. lia. }
  repeat split; vm_compute; reflexivity.
Qed.

Lemma arc_passes_pair_up_witness :
  nth (Z.to_nat (2 * 3 + 1)) GoldIcon.shackle_ops no_arc
  = nth (Z.to_nat (2 * 3)) GoldIcon.shackle_ops no_arc
  /\ arc_bbox (nth (Z.to_nat 2) VisibleIcon.shackle_ops no_arc)
     <> arc_bbox (nth (Z.to_nat 3) VisibleIcon.shackle_ops no_arc).
Proof.
  destruct (arc_passes_pair_up 3) as (Hg & _ & _ & _ & Hv & _).
  split.
  - apply Hg; [lia | reflexivity].
  - apply Hv; lia.
Defined.

(** ** Text placement *)

(** X8: the scripts measure the title with [textbbox] at the origin
    (0, 0) and centre its width, but draw it at [text_x] without taking
    [bbox[0]] off.  So for every measured box the ink keeps its width and
    its middle lies [bbox[0]] to the right of the middle of the canvas, up
    to the half pixel of the integer division: the sum of its two edges is
    [size + 2 bbox[0] - 1] or [size + 2 bbox[0]] in
    [create_custom_icon.py], and [size + 2 bbox[0]] or
    [size + 2 bbox[0] + 1] in [create_gold_icon.py] and
    [create_visible_icon.py]. *)
Theorem title_ink_is_off_centre_by_bbox_left (b0 b1 b2 b3 : Z) :
  (CustomIcon.size + 2 * b0 - 1
   <= CustomIcon.ink_left (b0, b1, b2, b3) + CustomIcon.ink_right (b0, b1, b2, b3)
   <= CustomIcon.size + 2 * b0)
  /\ (GoldIcon.size + 2 * b0
      <= GoldIcon.ink_left (b0, b1, b2, b3) + GoldIcon.ink_right (b0, b1, b2, b3)
      <= GoldIcon.size + 2 * b0 + 1)
  /\ (VisibleIcon.size + 2 * b0
      <= VisibleIcon.ink_left (b0, b1, b2, b3)
         + VisibleIcon.ink_right (b0, b1, b2, b3)
      <= VisibleIcon.size + 2 * b0 + 1)
  /\ CustomIcon.ink_right (b0, b1, b2, b3) - CustomIcon.ink_left (b0, b1, b2, b3)
     = b2 - b0
  /\ GoldIcon.ink_right (b0, b1, b2, b3) - GoldIcon.ink_left (b0, b1, b2, b3)
     = b2 - b0
  /\ VisibleIcon.ink_right (b0, b1, b2, b3)
     - VisibleIcon.ink_left (b0, b1, b2, b3) = b2 - b0.
Proof.
  unfold CustomIcon.ink_left, CustomIcon.ink_right, GoldIcon.ink_left,
    GoldIcon.ink_right, VisibleIcon.ink_left, VisibleIcon.ink_right,
    CustomIcon.text_x, GoldIcon.text_x, VisibleIcon.text_x.
  change GoldIcon.center with 512. change VisibleIcon.center with 512.
  change GoldIcon.size with 1024. change CustomIcon.size with 1024.
  change VisibleIcon.size with 1024.
  pose proof (Z.div_mod (b2 - b0) 2 ltac:(lia)) as Hd.
  pose proof (Z.mod_pos_bound (b2 - b0) 2 ltac:(lia)) as Hm.
  pose proof (Z.div_mod (1024 - (b2 - b0)) 2 ltac:(lia)) as Hd'.
  pose proof (Z.mod_pos_bound (1024 - (b2 - b0)) 2 ltac:(lia)) as Hm'.
  repeat split; lia.
Qed.

(** X9: in [create_custom_icon.py] the padlock hangs below the text, at a
    height that depends on the measured text height; whatever that height
    is, every pixel of the keyhole disc and of the keyhole slot lies inside
    the rounded body of the padlock. *)
Theorem custom_keyhole_inside_body (text_height x y : Z) :
  in_ellipse (CustomIcon.keyhole_box text_height) x y = true
  \/ in_rectangle (CustomIcon.slot_box text_height) x y = true ->
  in_rounded_rectangle (CustomIcon.body_box text_height) 20 x y = true.
Proof.
  unfold CustomIcon.keyhole_box, CustomIcon.slot_box, CustomIcon.body_box,
    CustomIcon.keyhole_y, CustomIcon.slot_y, CustomIcon.keyhole_y.
  change CustomIcon.keyhole_x with 502. change CustomIcon.slot_x with 508.
  change CustomIcon.padlock_x with 452.
  change CustomIcon.keyhole_size with 20. change CustomIcon.slot_width with 8.
  change CustomIcon.slot_height with 25. change CustomIcon.body_width with 120.
  change CustomIcon.body_height with 120.
  generalize (CustomIcon.padlock_y text_height). intros p H.
  assert (Hbox : 502 <= x <= 522 /\ p + 50 <= y <= p + 90).
  { destruct H as [H|H].
    - unfold in_ellipse in H.
      rewrite !andb_true_iff, !Z.leb_le in H. lia.
    - unfold in_rectangle in H.
      rewrite !andb_true_iff, !Z.leb_le in H. lia. }
  unfold in_rounded_rectangle, in_rectangle.
  destruct (Z.ltb_spec x (452 + 20)); [lia|].
  destruct (Z.ltb_spec (452 + 120 - 20) x); [lia|].
  destruct (Z.ltb_spec y (p + 30 + 20)); [lia|].
  destruct (Z.ltb_spec (p + 120 - 20) y); [lia|].
  rewrite !andb_true_iff, !Z.leb_le. repeat split; lia.
Qed.

Lemma custom_keyhole_inside_body_witness :
  in_rounded_rectangle (CustomIcon.body_box 130) 20 512 617 = true.
Proof.
  apply (custom_keyhole_inside_body 130 512 617). left. reflexivity.
Defined.

(** ** The masked icon of the banner *)

(** X10: whatever the resized icon holds, after the circular mask of
    [create_store_assets.py] its pixels are fully opaque on the disc of
    radius 130 around (150, 150) and fully transparent everywhere else, and
    their R, G and B are the icon's. *)
Theorem masked_icon_is_a_disc (app_icon : Canvas) :
  width app_icon = StoreAssets.icon_size ->
  height app_icon = StoreAssets.icon_size ->
  exists out,
    StoreAssets.masked_icon app_icon = Some out
    /\ forall x y, in_bounds app_icon x y = true ->
         alpha (pixels out x y)
         = (if dist2 150 x y <=? 130 ^ 2 then 255 else 0)
         /\ red (pixels out x y) = red (pixels app_icon x y)
         /\ green (pixels out x y) = green (pixels app_icon x y)
         /\ blue (pixels out x y) = blue (pixels app_icon x y).
Proof.
  intros Hw Hh. unfold StoreAssets.masked_icon, putalpha.
  cbn [mask_width mask_height StoreAssets.circular_mask].
  rewrite Hw, Hh, !Z.eqb_refl. cbn [andb].
  eexists. split; [reflexivity|].
  intros x y Hin. cbn [pixels alpha red green blue mask_values].
  split; [|repeat split].
  unfold in_bounds in Hin. rewrite Hw, Hh in Hin.
  unfold StoreAssets.circular_mask. cbn [mask_values].
  rewrite Hin. cbn [andb].
  change (20, 20, StoreAssets.icon_size - 20, StoreAssets.icon_size - 20)
    with (ring_bbox 150 130).
  rewrite in_ellipse_ring by lia. reflexivity.
Qed.

Lemma masked_icon_is_a_disc_witness :
  exists out,
    StoreAssets.masked_icon (newCanvas 300 300) = Some out
    /\ forall x y, in_bounds (newCanvas 300 300) x y = true ->
         alpha (pixels out x y)
         = (if dist2 150 x y <=? 130 ^ 2 then 255 else 0)
         /\ red (pixels out x y) = red (pixels (newCanvas 300 300) x y)
         /\ green (pixels out x y) = green (pixels (newCanvas 300 300) x y)
         /\ blue (pixels out x y) = blue (pixels (newCanvas 300 300) x y).
Proof.
  apply (masked_icon_is_a_disc (newCanvas 300 300)); reflexivity.
Defined.

(** ** Runs of the two asset scripts *)





(** ** Highlight rows *)

Lemma fades_sound (top : Z) (f : Z -> Z) (n : Z) :
  fades top f n = true -> Fades top f n.
Proof.
  unfold fades, Fades. rewrite andb_true_iff. intros [H0 Hall].
  split; [now apply Z.eqb_eq|].
  intros i Hi.
  pose proof (range_check n _ Hall i Hi) as H. cbv beta in H.
  rewrite !andb_true_iff, !Z.leb_le in H. destruct H as [[Hlo Hhi] Hstep].
  split; [lia|].
  intros Hlt. apply orb_true_iff in Hstep.
  destruct Hstep as [Hs|Hs]; apply Z.leb_le in Hs; lia.
Qed.

(** X13: the highlight loops compute a valid alpha for every row: in
    [create_gold_icon.py] it starts at 80 on the first of the 93 rows,
    never rises and reaches 0 on the last row; in [create_emoji_icon.py] it
    starts at 100 on the first of the 48 rows, never rises and ends at
    2. *)
Theorem highlight_alpha_fades :
  Fades 80 (GoldIcon.highlight_alpha GoldIcon.highlight_height)
    GoldIcon.highlight_height
  /\ GoldIcon.highlight_alpha GoldIcon.highlight_height
       (GoldIcon.highlight_height - 1) = 0
  /\ Fades 100 (EmojiIcon.highlight_alpha EmojiIcon.highlight_h)
       EmojiIcon.highlight_h
  /\ EmojiIcon.highlight_alpha EmojiIcon.highlight_h
       (EmojiIcon.highlight_h - 1) = 2.
Proof.
  split; [apply fades_sound; vm_compute; reflexivity|].
  split; [vm_compute; reflexivity|].
  split; [apply fades_sound; vm_compute; reflexivity|].
  vm_compute; reflexivity.
Qed.

(** ** Layers on top of each other *)

Lemma overdraw_pixel {A : Type} (box : A -> BBox) (k : Color) (l : list A)
  (cv : Canvas) (x y : Z) :
  opaque k -> in_bounds cv x y = true ->
  pixels (fold_left (fun acc c => rectangle (box c) k acc) l cv) x y
  = if existsb (fun c => in_rectangle (box c) x y) l then k
    else pixels cv x y.
Proof.
  intros Hk. revert cv. induction l as [|a l IH]; intros cv Hin.
  - reflexivity.
  - cbn [fold_left existsb]. rewrite IH by assumption.
    rewrite rectangle_pixel by assumption.
    destruct (in_rectangle (box a) x y), (existsb _ l); reflexivity.
Qed.

(** X14: after the gradient and the document rectangle of
    [create_icon.py], a pixel of the 1024 x 1024 image is white in the
    document box, (115, 58, 236) elsewhere on the disc of radius 511 and
    still transparent outside of it; the document box lies inside the
    disc. *)
Theorem icon_background_and_document_pixels (x y : Z) :
  in_bounds (newCanvas Icon.size Icon.size) x y = true ->
  getpixel Icon.background_and_document x y
  = Some (if in_rectangle (Icon.doc_x, Icon.doc_y, Icon.doc_x + Icon.doc_width,
                           Icon.doc_y + Icon.doc_height) x y
          then mkColor 255 255 255 255
          else if dist2 Icon.center x y <=? 511 ^ 2
               then mkColor 115 58 236 255
               else transparent)
  /\ (in_rectangle (Icon.doc_x, Icon.doc_y, Icon.doc_x + Icon.doc_width,
                    Icon.doc_y + Icon.doc_height) x y = true ->
      dist2 Icon.center x y <= 511 ^ 2).
Proof.
  intros Hin. split.
  - unfold getpixel, Icon.background_and_document.
    assert (Hg : in_bounds (Icon.gradient Icon.center
                              (newCanvas Icon.size Icon.size)) x y = true).
    { unfold Icon.gradient. now rewrite loop_in_bounds by reflexivity. }
    unfold rectangle at 1. rewrite in_bounds_paint, Hg. f_equal.
    fold (rectangle (Icon.doc_x, Icon.doc_y, Icon.doc_x + Icon.doc_width,
                     Icon.doc_y + Icon.doc_height) (mkColor 255 255 255 255)
            (Icon.gradient Icon.center (newCanvas Icon.size Icon.size))).
    rewrite rectangle_pixel by (reflexivity || assumption).
    rewrite icon_gradient_pixel by (assumption || (vm_compute; discriminate)).
    change (Icon.ring_color Icon.center (Icon.center - 1))
      with (mkColor 115 58 236 255).
    change ((Icon.center - 1) ^ 2) with (511 ^ 2).
    reflexivity.
  - change (Icon.doc_x, Icon.doc_y, Icon.doc_x + Icon.doc_width,
            Icon.doc_y + Icon.doc_height) with (412, 382, 612, 642).
    change Icon.center with 512.
    unfold in_rectangle, dist2.
    rewrite !andb_true_iff, !Z.leb_le. intros H. nia.
Qed.

Lemma icon_background_and_document_pixels_witness :
  getpixel Icon.background_and_document 20 20
  = Some (if in_rectangle (Icon.doc_x, Icon.doc_y, Icon.doc_x + Icon.doc_width,
                           Icon.doc_y + Icon.doc_height) 20 20
          then mkColor 255 255 255 255
          else if dist2 Icon.center 20 20 <=? 511 ^ 2
               then mkColor 115 58 236 255
               else transparent)
  /\ (in_rectangle (Icon.doc_x, Icon.doc_y, Icon.doc_x + Icon.doc_width,
                    Icon.doc_y + Icon.doc_height) 20 20 = true ->
      dist2 Icon.center 20 20 <= 511 ^ 2).
Proof.
  apply (icon_background_and_document_pixels 20 20). reflexivity.
Defined.

Lemma in_bounds_ellipse (bb : BBox) (k : Color) (cv : Canvas) (x y : Z) :
  in_bounds (ellipse bb k cv) x y = in_bounds cv x y.
Proof. reflexivity. Qed.

(** X15: the body rows and the four corner discs of
    [create_gold_icon.py] (lines 42-68), on whatever canvas the earlier
    lines left: a pixel within 25 of a corner of the body is background
    coloured, even outside the body box; any other pixel of the body box
    has its row colour; every other pixel is as it was.  In the script the
    earlier canvas is the background disc with its border. *)
Theorem gold_body_pixels (cv : Canvas) (x y : Z) :
  in_bounds cv x y = true ->
  getpixel (GoldIcon.round_corners (GoldIcon.body_gradient cv)) x y
  = Some (if GoldIcon.near_corner x y then GoldIcon.background
          else if in_rectangle
                    (GoldIcon.padlock_x, GoldIcon.body_top,
                     GoldIcon.padlock_x + GoldIcon.body_width,
                     GoldIcon.body_top + GoldIcon.body_height) x y
          then GoldIcon.body_color GoldIcon.body_height
                 (Z.min (y - GoldIcon.body_top) (GoldIcon.body_height - 1))
          else pixels cv x y)
  /\ getpixel (GoldIcon.body cv) x y
     = Some (if GoldIcon.near_corner x y then GoldIcon.background
             else if in_rectangle
                       (GoldIcon.padlock_x, GoldIcon.body_top,
                        GoldIcon.padlock_x + GoldIcon.body_width,
                        GoldIcon.body_top + GoldIcon.body_height) x y
             then GoldIcon.body_color GoldIcon.body_height
                    (Z.min (y - GoldIcon.body_top) (GoldIcon.body_height - 1))
             else pixels (GoldIcon.border (GoldIcon.background_disc cv)) x y).
Proof.
  assert (Hgen : forall cv0, in_bounds cv0 x y = true ->
            getpixel (GoldIcon.round_corners (GoldIcon.body_gradient cv0)) x y
            = Some (if GoldIcon.near_corner x y then GoldIcon.background
                    else if in_rectangle
                              (GoldIcon.padlock_x, GoldIcon.body_top,
                               GoldIcon.padlock_x + GoldIcon.body_width,
                               GoldIcon.body_top + GoldIcon.body_height) x y
                    then GoldIcon.body_color GoldIcon.body_height
                           (Z.min (y - GoldIcon.body_top)
                                  (GoldIcon.body_height - 1))
                    else pixels cv0 x y)).
  { intros cv0 Hin.
    assert (Hg : in_bounds (GoldIcon.body_gradient cv0) x y = true).
    { unfold GoldIcon.body_gradient.
      now rewrite loop_in_bounds by reflexivity. }
    unfold getpixel, GoldIcon.round_corners.
    rewrite !in_bounds_ellipse, Hg. f_equal.
    rewrite !ellipse_pixel
      by (reflexivity || (rewrite ?in_bounds_ellipse; exact Hg)).
    unfold GoldIcon.body_gradient.
    rewrite row_loop_pixel_Z;
      [| reflexivity | vm_compute; discriminate | exact Hin].
    change (0 <? GoldIcon.body_height) with true. cbn [andb].
    unfold GoldIcon.near_corner, GoldIcon.corner_box.
    destruct (in_ellipse
                (GoldIcon.padlock_x - GoldIcon.corner_size,
                 GoldIcon.body_top - GoldIcon.corner_size,
                 GoldIcon.padlock_x + GoldIcon.corner_size,
                 GoldIcon.body_top + GoldIcon.corner_size) x y),
      (in_ellipse
         (GoldIcon.padlock_x + GoldIcon.body_width - GoldIcon.corner_size,
          GoldIcon.body_top - GoldIcon.corner_size,
          GoldIcon.padlock_x + GoldIcon.body_width + GoldIcon.corner_size,
          GoldIcon.body_top + GoldIcon.corner_size) x y),
      (in_ellipse
         (GoldIcon.padlock_x - GoldIcon.corner_size,
          GoldIcon.body_top + GoldIcon.body_height - GoldIcon.corner_size,
          GoldIcon.padlock_x + GoldIcon.corner_size,
          GoldIcon.body_top + GoldIcon.body_height + GoldIcon.corner_size)
         x y),
      (in_ellipse
         (GoldIcon.padlock_x + GoldIcon.body_width - GoldIcon.corner_size,
          GoldIcon.body_top + GoldIcon.body_height - GoldIcon.corner_size,
          GoldIcon.padlock_x + GoldIcon.body_width + GoldIcon.corner_size,
          GoldIcon.body_top + GoldIcon.body_height + GoldIcon.corner_size)
         x y);
      reflexivity. }
  intros Hin. split; [now apply Hgen|].
  unfold GoldIcon.body. apply Hgen. exact Hin.
Qed.

Lemma gold_body_pixels_witness :
  getpixel (GoldIcon.round_corners
              (GoldIcon.body_gradient (newCanvas 1024 1024))) 332 452
  = Some (if GoldIcon.near_corner 332 452 then GoldIcon.background
          else if in_rectangle
                    (GoldIcon.padlock_x, GoldIcon.body_top,
                     GoldIcon.padlock_x + GoldIcon.body_width,
                     GoldIcon.body_top + GoldIcon.body_height) 332 452
          then GoldIcon.body_color GoldIcon.body_height
                 (Z.min (452 - GoldIcon.body_top) (GoldIcon.body_height - 1))
          else pixels (newCanvas 1024 1024) 332 452)
  /\ getpixel (GoldIcon.body (newCanvas 1024 1024)) 332 452
     = Some (if GoldIcon.near_corner 332 452 then GoldIcon.background
             else if in_rectangle
                       (GoldIcon.padlock_x, GoldIcon.body_top,
                        GoldIcon.padlock_x + GoldIcon.body_width,
                        GoldIcon.body_top + GoldIcon.body_height) 332 452
             then GoldIcon.body_color GoldIcon.body_height
                    (Z.min (452 - GoldIcon.body_top) (GoldIcon.body_height - 1))
             else pixels (GoldIcon.border
                            (GoldIcon.background_disc (newCanvas 1024 1024)))
                    332 452).
Proof.
  apply (gold_body_pixels (newCanvas 1024 1024) 332 452). reflexivity.
Defined.

(** X16: the corner step of [create_emoji_icon.py] changes no pixel
    outside the body box: the four squares lie inside it.  After the body
    rows and the corner squares, a pixel of the box [[body_x, body_y,
    body_x + body_width, body_y + body_height]] holds the last colour of
    the body loop inside a corner square and its row colour elsewhere, and
    every other pixel is untouched. *)
Theorem emoji_body_pixels (cv : Canvas) (x y : Z) :
  in_bounds cv x y = true ->
  getpixel (EmojiIcon.body cv) x y
  = Some (if in_rectangle
               (EmojiIcon.body_x, EmojiIcon.body_y,
                EmojiIcon.body_x + EmojiIcon.body_width,
                EmojiIcon.body_y + EmojiIcon.body_height) x y
          then if EmojiIcon.in_corner_square x y
               then EmojiIcon.body_color EmojiIcon.body_height
                      (EmojiIcon.body_height - 1)
               else EmojiIcon.body_color EmojiIcon.body_height
                      (Z.min (y - EmojiIcon.body_y)
                             (EmojiIcon.body_height - 1))
          else pixels cv x y)
  /\ (EmojiIcon.in_corner_square x y = true ->
      in_rectangle
        (EmojiIcon.body_x, EmojiIcon.body_y,
         EmojiIcon.body_x + EmojiIcon.body_width,
         EmojiIcon.body_y + EmojiIcon.body_height) x y = true).
Proof.
  intros Hin.
  assert (Hsq : EmojiIcon.in_corner_square x y = true ->
                in_rectangle
                  (EmojiIcon.body_x, EmojiIcon.body_y,
                   EmojiIcon.body_x + EmojiIcon.body_width,
                   EmojiIcon.body_y + EmojiIcon.body_height) x y = true).
  { unfold EmojiIcon.in_corner_square.
    change EmojiIcon.corners
      with [(400, 448); (584, 448); (400, 600); (584, 600)].
    change EmojiIcon.corner_r with 20.
    change (EmojiIcon.body_x, EmojiIcon.body_y,
            EmojiIcon.body_x + EmojiIcon.body_width,
            EmojiIcon.body_y + EmojiIcon.body_height)
      with (400, 448, 624, 640).
    unfold existsb, in_rectangle, fst, snd.
    rewrite !orb_true_iff, !andb_true_iff, !Z.leb_le. lia. }
  split; [|exact Hsq].
  assert (Hg : in_bounds (EmojiIcon.body_gradient cv) x y = true).
  { unfold EmojiIcon.body_gradient. now rewrite loop_in_bounds by reflexivity. }
  unfold getpixel, EmojiIcon.body.
  assert (Hb : in_bounds (EmojiIcon.round_corners (EmojiIcon.body_gradient cv))
                 x y = true).
  { unfold EmojiIcon.round_corners.
    generalize EmojiIcon.corners (EmojiIcon.body_gradient cv) Hg.
    induction l as [|a l IH]; intros cv0 H0; [exact H0|].
    cbn [fold_left]. apply IH. exact H0. }
  rewrite Hb. f_equal.
  unfold EmojiIcon.round_corners.
  rewrite (overdraw_pixel
             (fun c => (fst c, snd c, fst c + EmojiIcon.corner_r,
                        snd c + EmojiIcon.corner_r)))
    by (reflexivity || assumption).
  fold (EmojiIcon.in_corner_square x y).
  unfold EmojiIcon.body_gradient.
  rewrite row_loop_pixel_Z;
    [| reflexivity | vm_compute; discriminate | assumption].
  change (0 <? EmojiIcon.body_height) with true. cbn [andb].
  destruct (EmojiIcon.in_corner_square x y) eqn:E.
  - rewrite (Hsq eq_refl). reflexivity.
  - reflexivity.
Qed.

Lemma emoji_body_pixels_witness :
  getpixel (EmojiIcon.body (newCanvas 1024 1024)) 410 458
  = Some (if in_rectangle
               (EmojiIcon.body_x, EmojiIcon.body_y,
                EmojiIcon.body_x + EmojiIcon.body_width,
                EmojiIcon.body_y + EmojiIcon.body_height) 410 458
          then if EmojiIcon.in_corner_square 410 458
               then EmojiIcon.body_color EmojiIcon.body_height
                      (EmojiIcon.body_height - 1)
               else EmojiIcon.body_color EmojiIcon.body_height
                      (Z.min (458 - EmojiIcon.body_y)
                             (EmojiIcon.body_height - 1))
          else pixels (newCanvas 1024 1024) 410 458)
  /\ (EmojiIcon.in_corner_square 410 458 = true ->
      in_rectangle
        (EmojiIcon.body_x, EmojiIcon.body_y,
         EmojiIcon.body_x + EmojiIcon.body_width,
         EmojiIcon.body_y + EmojiIcon.body_height) 410 458 = true).
Proof.
  apply (emoji_body_pixels (newCanvas 1024 1024) 410 458). reflexivity.
Defined.

(** ** Scaling of the 512-unit design *)

(** X17: at every size that is a multiple [512 m] of the design size, up
    to 4096, [convert_svg_icon.py] places each design coordinate [k] of
    0 .. 512 at exactly [m k]: the float product and [int()] lose nothing,
    and the gradient radius [int(240 * size / 512)] is the scaled 240.  At
    the script's size 1024 every coordinate is doubled. *)
Theorem scaled_coordinates_exact (m k : Z) :
  1 <= m <= 8 -> 0 <= k <= 512 ->
  SvgIcon.scaled (512 * m) k = m * k
  /\ SvgIcon.radius_of (512 * m) = SvgIcon.scaled (512 * m) 240
  /\ SvgIcon.scaled SvgIcon.size k = 2 * k.
Proof.
  intros Hm Hk.
  assert (H : forallb
                (fun m' =>
                   forallb (fun k' =>
                              (SvgIcon.scaled (512 * (m' + 1)) k'
                               =? (m' + 1) * k')
                              && (SvgIcon.radius_of (512 * (m' + 1))
                                  =? SvgIcon.scaled (512 * (m' + 1)) 240))
                           (Py.range 513))
                (Py.range 8) = true)
    by (vm_compute; reflexivity).
  pose proof (range_check 8 _ H (m - 1) ltac:(lia)) as H1. cbv beta in H1.
  pose proof (range_check 513 _ H1 k ltac:(lia)) as H2. cbv beta in H2.
  replace (m - 1 + 1) with m in H2 by lia.
  apply andb_true_iff in H2. destruct H2 as [Ha Hb].
  apply Z.eqb_eq in Ha. apply Z.eqb_eq in Hb.
  split; [exact Ha|]. split; [exact Hb|].
  pose proof (range_check 8 _ H 1 ltac:(lia)) as H3. cbv beta in H3.
  pose proof (range_check 513 _ H3 k ltac:(lia)) as H4. cbv beta in H4.
  apply andb_true_iff in H4. destruct H4 as [Hc _].
  apply Z.eqb_eq in Hc. exact Hc.
Qed.

Lemma scaled_coordinates_exact_witness :
  SvgIcon.scaled (512 * 2) 392 = 2 * 392
  /\ SvgIcon.radius_of (512 * 2) = SvgIcon.scaled (512 * 2) 240
  /\ SvgIcon.scaled SvgIcon.size 392 = 2 * 392.
Proof. apply (scaled_coordinates_exact 2 392); lia. Defined.

(** ** Outline passes *)

(** X18: for every text origin the outline loop of [create_gold_icon.py]
    draws the black text at an offset [(dx, dy)] exactly when
    [max(|dx|, |dy|) <= 4] and [(dx, dy)] is not [(0, 0)], 80 draws in
    all, and the white text at the origin is the last draw. *)
Theorem gold_outline_is_the_ring_of_offsets (tx ty dx dy : Z) :
  (In (mkTextOp (tx + dx) (ty + dy) (mkColor 0 0 0 255))
      (GoldIcon.outline_ops tx ty)
   <-> Z.max (Z.abs dx) (Z.abs dy) <= 4 /\ (dx, dy) <> (0, 0))
  /\ List.length (GoldIcon.outline_ops tx ty) = 80%nat
  /\ last (GoldIcon.text_ops tx ty) (mkTextOp 0 0 transparent)
     = mkTextOp tx ty (mkColor 255 255 255 255)
  /\ List.length (GoldIcon.text_ops tx ty) = 81%nat.
Proof.
  split; [apply gold_outline_offsets|].
  split; [apply gold_text_order|].
  split; [apply gold_text_order|].
  unfold GoldIcon.text_ops. rewrite length_app.
  rewrite (proj1 (gold_text_order tx ty)). reflexivity.
Qed.

(** X19: for every text origin the outline loop of
    [create_visible_icon.py] draws the white text at an offset [(dx, dy)]
    exactly when [max(|dx|, |dy|) <= 3], the origin included, 49 draws in
    all, and the purple text at the origin is drawn after all of them. *)
Theorem visible_outline_is_the_square_of_offsets (tx ty dx dy : Z) :
  (In (mkTextOp (tx + dx) (ty + dy) (mkColor 255 255 255 255))
      (VisibleIcon.outline_ops tx ty)
   <-> Z.max (Z.abs dx) (Z.abs dy) <= 3)
  /\ List.length (VisibleIcon.outline_ops tx ty) = 49%nat
  /\ VisibleIcon.text_ops tx ty
     = VisibleIcon.outline_ops tx ty ++ [mkTextOp tx ty VisibleIcon.purple]
  /\ List.length (VisibleIcon.text_ops tx ty) = 50%nat.
Proof.
  split.
  { unfold VisibleIcon.outline_ops. rewrite in_flat_map. split.
    - intros [ax [Hax H]]. apply in_map_iff in H. destruct H as [ay [H Hay]].
      apply in_range2 in Hax. apply in_range2 in Hay.
      apply (f_equal (fun op => (text_x op, text_y op))) in H.
      cbn [text_x text_y] in H.
      assert (ax = dx) by (apply (f_equal fst) in H; cbn [fst] in H; lia).
      assert (ay = dy) by (apply (f_equal snd) in H; cbn [snd] in H; lia).
      lia.
    - intros Hmax. exists dx. split; [apply in_range2; lia|].
      apply in_map_iff. exists dy. split; [reflexivity|].
      apply in_range2. lia. }
  split; [vm_compute; reflexivity|].
  split; [reflexivity|].
  vm_compute. reflexivity.
Qed.
